(** * Excel File Editor MCP server: a shallow embedding of [main.py]

    The nine tools of [main.py] are thin wrappers around [openpyxl] and
    [pandas].  This development embeds

    - the Python fragments the tools rely on (exceptions, dictionaries,
      string tests, scalar values),
    - the part of [openpyxl] they call (workbooks, sheets, cells, fonts and
      fills, coordinate parsing, load and save),
    - the part of [pandas] they call (frames built from records, the Excel
      writer, [read_excel] with its header and dtype inference),
    - the nine tools themselves, statement by statement,

    and then states and proves properties of the tools.

    Conventions of the model.
    - Text is a [string] of bytes; case folding and length are those of
      ASCII (they agree with Python on ASCII text).
    - A float is a decimal [m * 10^e], or an infinity, or NaN; binary
      rounding is not modelled.
    - Dates, rich text, comments, merged cells, number formats and hidden
      sheets are outside the model: a cell carries its content, its font and
      its fill.
    - The file system maps a path to a stored workbook or to some other
      file, and records the paths that cannot be opened for writing. *)

From stdpp Require Import gmap strings list pretty.
From Stdlib Require Import ZArith Ascii String List Lia.

Local Open Scope string_scope.
Local Open Scope Z_scope.
Set Warnings "-register-all".

(** [NoDup] is stdpp's, whose lemmas the proofs use. *)
Abbreviation NoDup := stdpp.base.NoDup (only parsing).

(** ** Python basics *)

Module Py.

(** An expression either yields a value or raises; [Raise] carries
    [str(e)], the only part of an exception the tools ever look at. *)
Inductive exc (A : Type) : Type :=
| Ok (a : A)
| Raise (msg : string).
Arguments Ok {A} a.
Arguments Raise {A} msg.

Definition ebind {A B} (m : exc A) (k : A -> exc B) : exc B :=
  match m with
  | Ok a => k a
  | Raise e => Raise e
  end.

Notation "'let*' x ':=' m 'in' k" := (ebind m (fun x => k))
  (at level 10, x pattern, m at level 100, k at level 200).

(** *** Characters and strings *)

Definition chars (s : string) : list ascii := list_ascii_of_string s.
Definition text (l : list ascii) : string := string_of_list_ascii l.

Definition ascii_eqb (a b : ascii) : bool := Ascii.eqb a b.

Definition code (a : ascii) : nat := nat_of_ascii a.

Definition is_upper (a : ascii) : bool :=
  (Nat.leb 65 (code a) && Nat.leb (code a) 90)%bool.
Definition is_lower (a : ascii) : bool :=
  (Nat.leb 97 (code a) && Nat.leb (code a) 122)%bool.
Definition is_letter (a : ascii) : bool := (is_upper a || is_lower a)%bool.
Definition is_digit (a : ascii) : bool :=
  (Nat.leb 48 (code a) && Nat.leb (code a) 57)%bool.

Definition lower_ascii (a : ascii) : ascii :=
  if is_upper a then ascii_of_nat (code a + 32) else a.
Definition upper_ascii (a : ascii) : ascii :=
  if is_lower a then ascii_of_nat (code a - 32) else a.

(** [s.lower()] *)
Definition lower (s : string) : string := text (map lower_ascii (chars s)).

Fixpoint list_eqb (l1 l2 : list ascii) : bool :=
  match l1, l2 with
  | [], [] => true
  | a :: l1', b :: l2' => (ascii_eqb a b && list_eqb l1' l2')%bool
  | _, _ => false
  end.

Definition str_eqb (s t : string) : bool := String.eqb s t.

Fixpoint is_prefix (p l : list ascii) : bool :=
  match p, l with
  | [], _ => true
  | a :: p', b :: l' => (ascii_eqb a b && is_prefix p' l')%bool
  | _ :: _, [] => false
  end.

(** [s.startswith(p)] and [s.endswith(p)] *)
Definition startswith (s p : string) : bool := is_prefix (chars p) (chars s).
Definition endswith (s p : string) : bool :=
  is_prefix (rev (chars p)) (rev (chars s)).

(** [p in s] on strings *)
Fixpoint is_infix (p l : list ascii) : bool :=
  (is_prefix p l ||
   match l with
   | [] => false
   | _ :: l' => is_infix p l'
   end)%bool.
Definition contains (s p : string) : bool := is_infix (chars p) (chars s).

(** [x in names] on a list of strings *)
Definition str_in (x : string) (names : list string) : bool :=
  existsb (str_eqb x) names.

(** [bool(s)] of a string: the empty string is falsy. *)
Definition truthy_str (s : string) : bool :=
  match s with
  | EmptyString => false
  | _ => true
  end.

(** [str(n)] of an int *)
Definition str_of_Z (z : Z) : string := pretty z.
Definition str_of_nat (n : nat) : string := pretty n.

(** [int(digits)] of a run of ASCII digits *)
Definition digit_val (a : ascii) : N := N.of_nat (code a - 48).
Definition int_of_digits (l : list ascii) : N :=
  fold_left (fun acc a => (10 * acc + digit_val a)%N) l 0%N.

(** A maximal run of characters satisfying [p], and the rest. *)
Fixpoint span (p : ascii -> bool) (l : list ascii) : list ascii * list ascii :=
  match l with
  | [] => ([], [])
  | a :: l' =>
      if p a then (let '(x, y) := span p l' in (a :: x, y)) else ([], l)
  end.

(** *** Floats and scalar values *)

(** A finite float [dmant * 10 ^ dexp]. *)
Record dec : Type := Dec { dmant : Z; dexp : Z }.

Inductive pyfloat : Type :=
| FFin (d : dec)
| FInf (negative : bool)
| FNaN.

(** The integer a decimal denotes, when it denotes one. *)
Definition dec_int (d : dec) : option Z :=
  if 0 <=? dexp d then Some (dmant d * 10 ^ dexp d)
  else if dmant d mod 10 ^ (- dexp d) =? 0 then Some (dmant d / 10 ^ (- dexp d))
  else None.

(** Numeric equality of two decimals (both scaled to the smaller exponent). *)
Definition dec_eqb (a b : dec) : bool :=
  let e := Z.min (dexp a) (dexp b) in
  (dmant a * 10 ^ (dexp a - e) =? dmant b * 10 ^ (dexp b - e)).

Definition dec_of_Z (z : Z) : dec := Dec z 0.

(** The scalar values that travel through the tools: JSON scalars on the
    way in, Python and NumPy scalars on the way out. *)
Inductive scalar : Type :=
| SNull                     (* None *)
| SBool (b : bool)
| SInt (z : Z)
| SFloat (f : pyfloat)
| SText (s : string).

#[global] Instance dec_eq_dec : EqDecision dec.
Proof. solve_decision. Defined.
#[global] Instance pyfloat_eq_dec : EqDecision pyfloat.
Proof. solve_decision. Defined.
#[global] Instance scalar_eq_dec : EqDecision scalar.
Proof. solve_decision. Defined.

Definition SNaN : scalar := SFloat FNaN.

(** The number a scalar denotes in Python's numeric tower ([True == 1]). *)
Definition num_of (v : scalar) : option pyfloat :=
  match v with
  | SBool b => Some (FFin (dec_of_Z (if b then 1 else 0)))
  | SInt z => Some (FFin (dec_of_Z z))
  | SFloat f => Some f
  | _ => None
  end.

Definition pyfloat_eqb (a b : pyfloat) : bool :=
  match a, b with
  | FFin x, FFin y => dec_eqb x y
  | FInf s, FInf t => Bool.eqb s t
  | _, _ => false
  end.

(** Python's [==] on scalars. *)
Definition py_eq (a b : scalar) : bool :=
  match a, b with
  | SNull, SNull => true
  | SText s, SText t => str_eqb s t
  | _, _ =>
      match num_of a, num_of b with
      | Some x, Some y => pyfloat_eqb x y
      | _, _ => false
      end
  end.

(** [math.isnan], [pandas.isna] *)
Definition is_nan (v : scalar) : bool :=
  match v with
  | SFloat FNaN => true
  | _ => false
  end.
Definition isna (v : scalar) : bool :=
  match v with
  | SNull => true
  | SFloat FNaN => true
  | _ => false
  end.

(** *** [repr] of floats and [str] of scalars *)

(** Strip the trailing zeros of a mantissa: [m * 10^e] with [m] not a
    multiple of ten (or zero). *)
Fixpoint strip_zeros (fuel : nat) (m e : Z) : Z * Z :=
  match fuel with
  | O => (m, e)
  | S fuel' =>
      if (m =? 0) then (0, 0)
      else if (m mod 10 =? 0) then strip_zeros fuel' (m / 10) (e + 1)
      else (m, e)
  end.

Definition normalize (d : dec) : Z * Z :=
  strip_zeros (S (Z.to_nat (Z.log2 (Z.abs (dmant d))))) (dmant d) (dexp d).

Definition zeros (n : nat) : list ascii := repeat "0"%char n.

(** [repr(x)] of a finite float: positional notation when the decimal
    exponent is in [-4, 16), scientific otherwise. *)
Definition dec_repr (d : dec) : string :=
  let '(m, e) := normalize d in
  let sign := if m <? 0 then "-" else EmptyString in
  let ds := chars (str_of_Z (Z.abs m)) in
  let k := Z.of_nat (List.length ds) in
  let p := k + e in
  if (m =? 0) then "0.0"
  else if ((-4 <=? p - 1) && (p - 1 <? 16))%bool then
    if 0 <=? e then sign +:+ text (ds ++ zeros (Z.to_nat e)) +:+ ".0"
    else if 0 <? p then
      sign +:+ text (take (Z.to_nat p) ds) +:+ "." +:+ text (drop (Z.to_nat p) ds)
    else sign +:+ "0." +:+ text (zeros (Z.to_nat (- p)) ++ ds)
  else
    let x := p - 1 in
    let frac := match ds with
                | [] | [_] => EmptyString
                | _ :: tl => "." +:+ text tl
                end in
    let xs := str_of_Z (Z.abs x) in
    sign +:+ text (take 1 ds) +:+ frac +:+ "e" +:+ (if x <? 0 then "-" else "+")
      +:+ (if Z.abs x <? 10 then "0" +:+ xs else xs).

Definition float_repr (f : pyfloat) : string :=
  match f with
  | FFin d => dec_repr d
  | FInf false => "inf"
  | FInf true => "-inf"
  | FNaN => "nan"
  end.

(** [str(v)] *)
Definition py_str (v : scalar) : string :=
  match v with
  | SNull => "None"
  | SBool true => "True"
  | SBool false => "False"
  | SInt z => str_of_Z z
  | SFloat f => float_repr f
  | SText s => s
  end.

(** *** Values returned to the caller *)

(** Python objects as the tools build them: scalars, lists, and
    dictionaries in insertion order. *)
Inductive pyval : Type :=
| PScalar (s : scalar)
| PList (l : list pyval)
| PDict (d : list (scalar * pyval)).

Definition PStr (s : string) : pyval := PScalar (SText s).
Definition PInt (z : Z) : pyval := PScalar (SInt z).
Definition PBool (b : bool) : pyval := PScalar (SBool b).

(** [d[k] = v] on a dictionary: an existing key keeps its place. *)
Fixpoint dict_set (k : scalar) (v : pyval) (d : list (scalar * pyval))
  : list (scalar * pyval) :=
  match d with
  | [] => [(k, v)]
  | (k', v') :: d' =>
      if py_eq k' k then (k', v) :: d' else (k', v') :: dict_set k v d'
  end.

(** A tool's return value: a dictionary with string keys. *)
Definition result : Type := list (string * pyval).

Definition keys (r : result) : list string := map fst r.

Fixpoint get (k : string) (r : result) : option pyval :=
  match r with
  | [] => None
  | (k', v) :: r' => if str_eqb k' k then Some v else get k r'
  end.

End Py.

(** ** The openpyxl fragment *)

Module Xl.
Import Py.

(** *** Styles *)

Inductive color : Type :=
| ColorRGB (argb : string)
| ColorTheme (n : nat).

(** [Font(name, sz, b, i, color)]: every field defaults to [None]. *)
Record font : Type := Font {
  font_name : option string;
  font_size : option Z;
  font_bold : option bool;
  font_italic : option bool;
  font_color : option color
}.

(** [PatternFill(fill_type, start_color, end_color)] *)
Record fill : Type := PatternFill {
  fill_type : option string;
  fgColor : color;
  bgColor : color
}.

(** The styles of a cell that was never styled. *)
Definition DEFAULT_FONT : font :=
  Font (Some "Calibri") (Some 11) (Some false) (Some false) (Some (ColorTheme 1)).
Definition DEFAULT_FILL : fill :=
  PatternFill None (ColorRGB "00000000") (ColorRGB "00000000").

Definition is_hex (a : ascii) : bool :=
  (is_digit a
   || (Nat.leb 65 (code a) && Nat.leb (code a) 70)
   || (Nat.leb 97 (code a) && Nat.leb (code a) 102))%bool.

(** [Color(rgb=value)]: six or eight hex digits, six are prefixed by 00. *)
Definition Color (value : string) : exc color :=
  let l := chars value in
  let n := List.length l in
  if (forallb is_hex l && (Nat.eqb n 6 || Nat.eqb n 8))%bool
  then Ok (ColorRGB (if Nat.eqb n 6 then "00" +:+ value else value))
  else Raise "Colors must be aRGB hex values".

(** *** Cells *)

Inductive content : Type :=
| CEmpty
| CNum (f : pyfloat)
| CBool (b : bool)
| CStr (s : string)
| CFormula (src : string) (cached : option scalar)
| CError (code : string).

Record cell : Type := Cell {
  value : content;
  cfont : font;
  cfill : fill
}.

Definition blank : cell := Cell CEmpty DEFAULT_FONT DEFAULT_FILL.

#[global] Instance color_eq_dec : EqDecision color.
Proof. solve_decision. Defined.
#[global] Instance font_eq_dec : EqDecision font.
Proof. solve_decision. Defined.
#[global] Instance fill_eq_dec : EqDecision fill.
Proof. solve_decision. Defined.
#[global] Instance content_eq_dec : EqDecision content.
Proof. solve_decision. Defined.
#[global] Instance cell_eq_dec : EqDecision cell.
Proof. solve_decision. Defined.

Definition ILLEGAL_CHARACTER (a : ascii) : bool :=
  let n := code a in
  (Nat.leb n 8 || (Nat.leb 11 n && Nat.leb n 12) || (Nat.leb 14 n && Nat.leb n 31))%bool.

(** [Cell.check_string]: at most 32767 characters, no control character. *)
Definition check_string (s : string) : exc string :=
  let v := text (take (N.to_nat 32767) (chars s)) in
  if existsb ILLEGAL_CHARACTER (chars v)
  then Raise (v +:+ " cannot be used in worksheets.")
  else Ok v.

Definition ERROR_CODES : list string :=
  ["#NULL!"; "#DIV/0!"; "#VALUE!"; "#REF!"; "#NAME?"; "#NUM!"; "#N/A"].

(** [Cell._bind_value]: the content a Python value becomes. *)
Definition bind_value (v : scalar) : exc content :=
  match v with
  | SNull => Ok CEmpty
  | SBool b => Ok (CBool b)
  | SInt z => Ok (CNum (FFin (dec_of_Z z)))
  | SFloat f => Ok (CNum f)
  | SText s =>
      let* s' := check_string s in
      if (Nat.ltb 1 (String.length s') && startswith s' "=")%bool
      then Ok (CFormula s' None)
      else if str_in s' ERROR_CODES then Ok (CError s')
      else Ok (CStr s')
  end.

(** *** Worksheets and workbooks *)

Record worksheet : Type := Worksheet {
  title : string;
  cells : gmap (nat * nat) cell     (* (row, column), both from 1 *)
}.

Definition workbook : Type := list worksheet.

Definition sheetnames (wb : workbook) : list string := map title wb.

(** The cell at a coordinate; a missing cell reads as a blank one. *)
Definition cell_at (ws : worksheet) (rc : nat * nat) : cell :=
  default blank (cells ws !! rc).

Definition put_cell (ws : worksheet) (rc : nat * nat) (c : cell) : worksheet :=
  Worksheet (title ws) (<[rc := c]> (cells ws)).

Definition set_value (ws : worksheet) (rc : nat * nat) (v : content) : worksheet :=
  let c := cell_at ws rc in put_cell ws rc (Cell v (cfont c) (cfill c)).
Definition set_font (ws : worksheet) (rc : nat * nat) (f : font) : worksheet :=
  let c := cell_at ws rc in put_cell ws rc (Cell (value c) f (cfill c)).
Definition set_fill (ws : worksheet) (rc : nat * nat) (f : fill) : worksheet :=
  let c := cell_at ws rc in put_cell ws rc (Cell (value c) (cfont c) f).

(** [ws.max_row] and [ws.max_column]: the largest row and column that hold
    a cell, 1 on an empty sheet. *)
Definition ws_max_row (ws : worksheet) : nat :=
  Nat.max 1 (max_list (map (fun kv => fst (fst kv)) (map_to_list (cells ws)))).
Definition ws_max_column (ws : worksheet) : nat :=
  Nat.max 1 (max_list (map (fun kv => snd (fst kv)) (map_to_list (cells ws)))).

(** [wb[name]]: the first sheet with that title. *)
Fixpoint get_sheet (wb : workbook) (name : string) : exc worksheet :=
  match wb with
  | [] => Raise ("'Worksheet " +:+ name +:+ " does not exist.'")
  | ws :: wb' => if str_eqb (title ws) name then Ok ws else get_sheet wb' name
  end.

(** Writing back a sheet obtained by [wb[name]]: sheets are shared objects,
    so a change made through the sheet is a change of the workbook. *)
Fixpoint put_sheet (wb : workbook) (name : string) (ws' : worksheet) : workbook :=
  match wb with
  | [] => []
  | ws :: wb' =>
      if str_eqb (title ws) name then ws' :: wb' else ws :: put_sheet wb' name ws'
  end.

(** [wb.remove(wb[name])] *)
Fixpoint remove_sheet (wb : workbook) (name : string) : workbook :=
  match wb with
  | [] => []
  | ws :: wb' =>
      if str_eqb (title ws) name then wb' else ws :: remove_sheet wb' name
  end.

(** *** Coordinates and ranges *)

Definition drop_dollar (l : list ascii) : list ascii :=
  match l with
  | "$"%char :: l' => l'
  | _ => l
  end.

Definition nonempty (l : list ascii) : option (list ascii) :=
  match l with
  | [] => None
  | _ => Some l
  end.

(** One side of a range: an optional dollar, up to three letters, an
    optional dollar, digits.  Yields the letters, the digits and what
    follows them. *)
Definition parse_half (l : list ascii)
  : option (option (list ascii) * option (list ascii) * list ascii) :=
  let '(letters, l2) := span is_letter (drop_dollar l) in
  if Nat.ltb 3 (List.length letters) then None
  else
    let '(digits, l4) := span is_digit (drop_dollar l2) in
    Some (nonempty letters, nonempty digits, l4).

(** [column_index_from_string]: A is 1, Z is 26, AA is 27. *)
Definition column_index_from_string (letters : list ascii) : N :=
  fold_left (fun acc a => (26 * acc + N.of_nat (code (upper_ascii a) - 64))%N)
    letters 0%N.

Definition bounds : Type := option N * option N * option N * option N.

Definition not_a_range (key : string) : string :=
  key +:+ " is not a valid coordinate or range".

(** [range_boundaries(key)]: [(min_col, min_row, max_col, max_row)]. *)
Definition range_boundaries (key : string) : exc bounds :=
  match parse_half (chars key) with
  | None => Raise (not_a_range key)
  | Some (c1, r1, rest) =>
      let col := option_map column_index_from_string in
      let row := option_map int_of_digits in
      match rest with
      | [] => Ok (col c1, row r1, col c1, row r1)
      | ":"%char :: rest' =>
          match parse_half rest' with
          | Some (c2, r2, []) =>
              let all_cols := (bool_decide (is_Some c1) && bool_decide (is_Some c2))%bool in
              let all_rows := (bool_decide (is_Some r1) && bool_decide (is_Some r2))%bool in
              let any_cols := (bool_decide (is_Some c1) || bool_decide (is_Some c2))%bool in
              let any_rows := (bool_decide (is_Some r1) || bool_decide (is_Some r2))%bool in
              if ((all_cols && all_rows) || (all_cols && negb any_rows)
                  || (all_rows && negb any_cols))%bool
              then Ok (col c1, row r1, col c2, row r2)
              else Raise (not_a_range key)
          | _ => Raise (not_a_range key)
          end
      | _ => Raise (not_a_range key)
      end
  end.

(** What [ws[key]] evaluates to: one cell, a tuple of cells, or a tuple of
    tuples of cells (cells are named by their coordinates). *)
Inductive item : Type :=
| ICell (rc : nat * nat)
| ITuple (cs : list (nat * nat))
| ITuples (rows : list (list (nat * nat))).

(** [x or d] on an optional int: [None] and 0 are falsy. *)
Definition or_else (x : option N) (d : N) : N :=
  match x with
  | Some n => if (n =? 0)%N then d else n
  | None => d
  end.

Definition falsy (x : option N) : bool :=
  match x with
  | Some n => (n =? 0)%N
  | None => true
  end.

Definition MAX_ROW : N := 1048576.

Definition bad_row (r : N) : string :=
  "Row numbers must be between 1 and 1048576. Row number supplied was "
    +:+ pretty r.

(** [range(a, b + 1)] *)
Definition range (a b : N) : list nat :=
  seq (N.to_nat a) (N.to_nat (b + 1 - a)).

(** [ws._cells_by_row]: the cells of a rectangle, row by row; [ws.cell]
    refuses a row beyond the last row of a sheet. *)
Definition cells_by_row (min_col min_row max_col max_row : N)
  : exc (list (list (nat * nat))) :=
  if ((min_row <=? max_row) && (min_col <=? max_col) && (MAX_ROW <? max_row))%bool%N
  then Raise (bad_row (N.max min_row (MAX_ROW + 1)))
  else Ok (map (fun r => map (fun c => (r, c)) (range min_col max_col))
             (range min_row max_row)).

(** [ws._cells_by_col]: the same cells, column by column. *)
Definition cells_by_col (min_col min_row max_col max_row : N)
  : exc (list (list (nat * nat))) :=
  if ((min_row <=? max_row) && (min_col <=? max_col) && (MAX_ROW <? max_row))%bool%N
  then Raise (bad_row (N.max min_row (MAX_ROW + 1)))
  else Ok (map (fun c => map (fun r => (r, c)) (range min_row max_row))
             (range min_col max_col)).

Definition iter_rows (ws : worksheet) (min_row max_row min_col max_col : option N)
  : exc (list (list (nat * nat))) :=
  cells_by_row (or_else min_col 1) (or_else min_row 1)
    (or_else max_col (N.of_nat (ws_max_column ws)))
    (or_else max_row (N.of_nat (ws_max_row ws))).

Definition iter_cols (ws : worksheet) (min_col max_col : option N)
  : exc (list (list (nat * nat))) :=
  cells_by_col (or_else min_col 1) 1
    (or_else max_col (N.of_nat (ws_max_column ws))) (N.of_nat (ws_max_row ws)).

Definition head_tuple (l : list (list (nat * nat))) : exc item :=
  match l with
  | t :: _ => Ok (ITuple t)
  | [] => Raise "tuple index out of range"
  end.

(** [ws[key]] *)
Definition getitem (ws : worksheet) (key : string) : exc item :=
  let* b := range_boundaries key in
  let '(min_col, min_row, max_col, max_row) := b in
  if (falsy min_col && falsy min_row && falsy max_col && falsy max_row)%bool
  then Raise (not_a_range key)
  else
    match min_row, min_col with
    | None, _ =>
        let* cols := iter_cols ws min_col max_col in
        if bool_decide (min_col = max_col) then head_tuple cols else Ok (ITuples cols)
    | Some _, None =>
        let* rows := iter_rows ws min_row max_row None (Some (N.of_nat (ws_max_column ws))) in
        if bool_decide (min_row = max_row) then head_tuple rows else Ok (ITuples rows)
    | Some r, Some c =>
        if negb (contains key ":") then
          if ((0 <? r) && (r <=? MAX_ROW))%bool%N
          then Ok (ICell (N.to_nat r, N.to_nat c))
          else Raise (bad_row r)
        else
          let* rows := iter_rows ws min_row max_row min_col max_col in
          Ok (ITuples rows)
    end.

(** *** Sheet titles *)

Definition INVALID_TITLE (a : ascii) : bool :=
  existsb (ascii_eqb a) (chars "\*?:/[]").

(** The digit runs that follow the occurrences of [value] (any case) in the
    joined sheet names: each match of the title followed by digits and an
    optional comma. *)
Fixpoint title_counts (fuel skip : nat) (value l : list ascii) : list (list ascii) :=
  match fuel with
  | O => []
  | S fuel' =>
      match skip with
      | S skip' =>
          match l with
          | [] => []
          | _ :: l' => title_counts fuel' skip' value l'
          end
      | O =>
          if is_prefix (map lower_ascii value) (map lower_ascii l) then
            let after := drop (List.length value) l in
            let '(digits, _) := span is_digit after in
            digits :: title_counts fuel' (Nat.max 1 (List.length value + List.length digits))
                        value l
          else
            match l with
            | [] => []
            | _ :: l' => title_counts fuel' 0 value l'
            end
      end
  end.

Definition join_names (names : list string) : string :=
  match names with
  | [] => EmptyString
  | n :: ns => fold_left (fun acc x => acc +:+ "," +:+ x) ns n
  end.

(** [avoid_duplicate_name(names, value)] *)
Definition avoid_duplicate_name (names : list string) (value : string) : string :=
  if existsb (fun n => str_eqb (lower n) (lower value)) names then
    let joined := chars (join_names names) in
    let runs := title_counts (S (2 * List.length joined)) 0 (chars value) joined in
    match runs with
    | [] => value
    | _ =>
        let counts := map int_of_digits (filter (fun d => negb (bool_decide (d = []))) runs) in
        let highest := fold_right N.max 0%N counts in
        value +:+ pretty (highest + 1)%N
    end
  else value.

(** The title setter of a sheet whose title is [current]. *)
Definition set_title (names : list string) (current value : string) : exc string :=
  match List.find INVALID_TITLE (chars value) with
  | Some a => Raise ("Invalid character " +:+ text [a] +:+ " found in sheet title")
  | None =>
      Ok (if str_eqb current value then value else avoid_duplicate_name names value)
  end.

(** [Workbook()]: one empty sheet named Sheet. *)
Definition new_workbook : workbook := [Worksheet "Sheet" ∅].

(** [wb.create_sheet(title)]: the new sheet goes last; an empty title is
    replaced by the default one. *)
Definition create_sheet (wb : workbook) (name : string) : exc (workbook * string) :=
  let wanted := if truthy_str name then name else "Sheet" in
  let* t := set_title (sheetnames wb) EmptyString wanted in
  Ok ((wb ++ [Worksheet t ∅])%list, t).

(** *** Files *)

Inductive file : Type :=
| FWorkbook (wb : workbook)     (* a stored spreadsheet document *)
| FOther.                       (* anything else: other data, a directory *)

Record filesystem : Type := FS {
  files : gmap string file;
  unwritable : gset string      (* paths that cannot be opened for writing *)
}.

(** [os.path.exists] *)
Definition exists_ (fs : filesystem) (path : string) : bool :=
  bool_decide (is_Some (files fs !! path)).

Definition not_dot_or_sep (a : ascii) : bool :=
  negb (ascii_eqb a "."%char || ascii_eqb a "/"%char)%bool.

(** [os.path.splitext(path)[-1]]: from the last dot of the last component,
    unless that component has only leading dots before it. *)
Definition splitext (path : string) : string :=
  let '(ext_rev, rest) := span not_dot_or_sep (rev (chars path)) in
  match rest with
  | "."%char :: before =>
      let '(name_rev, _) := span (fun a => negb (ascii_eqb a "/"%char)) before in
      if existsb (fun a => negb (ascii_eqb a "."%char)) name_rev
      then text ("."%char :: rev ext_rev)
      else EmptyString
  | _ => EmptyString
  end.

Definition SUPPORTED_FORMATS : list string := [".xlsx"; ".xlsm"; ".xltx"; ".xltm"].

Definition finite_content (c : cell) : bool :=
  match value c with
  | CNum (FFin _) => true
  | CNum _ => false
  | _ => true
  end.

(** A stored number that is not finite is written as text no reader can
    cast back to a number: such a document does not load. *)
Definition readable (wb : workbook) : bool :=
  forallb (fun ws => forallb (fun kv => finite_content (snd kv)) (map_to_list (cells ws))) wb.

(** [openpyxl.load_workbook(path)] for a path that exists. *)
Definition load_workbook (fs : filesystem) (path : string) : exc workbook :=
  let ext := lower (splitext path) in
  if negb (str_in ext SUPPORTED_FORMATS) then
    Raise ("openpyxl does not support " +:+ ext +:+ " file format, please check you can open it with Excel first. Supported formats are: .xlsx,.xlsm,.xltx,.xltm")
  else
    match files fs !! path with
    | Some (FWorkbook wb) =>
        if readable wb then Ok wb else Raise "invalid literal for int() with base 10: 'nan'"
    | Some FOther => Raise "File is not a zip file"
    | None => Raise ("[Errno 2] No such file or directory: '" +:+ path +:+ "'")
    end.

(** What a cell looks like once written and read back: an empty string is
    an empty cell, a formula loses its cached result, and an empty cell
    without style is not written at all. *)
Definition stored_value (v : content) : content :=
  match v with
  | CStr EmptyString => CEmpty
  | CFormula src _ => CFormula src None
  | _ => v
  end.

Definition stored_cell (c : cell) : option cell :=
  match value c with
  | CEmpty =>
      if bool_decide (c = blank) then None else Some c
  | v => Some (Cell (stored_value v) (cfont c) (cfill c))
  end.

Definition stored_sheet (ws : worksheet) : worksheet :=
  Worksheet (title ws) (omap stored_cell (cells ws)).

Definition stored (wb : workbook) : workbook := map stored_sheet wb.

(** Writing a workbook into a file that is already open for writing: a
    workbook without sheets cannot be written and leaves a broken file. *)
Definition write_archive (wb : workbook) (path : string) (fs : filesystem)
  : exc unit * filesystem :=
  match wb with
  | [] => (Raise "At least one sheet must be visible",
           FS (<[path := FOther]> (files fs)) (unwritable fs))
  | _ => (Ok tt, FS (<[path := FWorkbook (stored wb)]> (files fs)) (unwritable fs))
  end.

(** [wb.save(path)] *)
Definition save (wb : workbook) (path : string) (fs : filesystem)
  : exc unit * filesystem :=
  if bool_decide (path ∈ unwritable fs)
  then (Raise ("[Errno 13] Permission denied: '" +:+ path +:+ "'"), fs)
  else write_archive wb path fs.

End Xl.

(** ** The pandas fragment *)

Module Pd.
Import Py Xl.

(** A frame: column labels and rows of values, every row as long as the
    list of labels. *)
Record DataFrame : Type := Frame {
  columns : list scalar;
  rows : list (list scalar)
}.

(** A row of input data: a dictionary from column name to value. *)
Definition record : Type := list (string * scalar).

Fixpoint record_get (k : string) (r : record) : option scalar :=
  match r with
  | [] => None
  | (k', v) :: r' => if str_eqb k' k then Some v else record_get k r'
  end.

(** The keys of all rows, each at its first appearance. *)
Definition add_key (acc : list string) (k : string) : list string :=
  if str_in k acc then acc else (acc ++ [k])%list.
Definition union_keys (data : list record) : list string :=
  fold_left (fun acc r => fold_left add_key (map fst r) acc) data [].

Definition is_number (v : scalar) : bool :=
  match v with
  | SInt _ | SFloat _ => true
  | _ => false
  end.

(** A column of numbers and nulls with at least one number is a float
    column, in which a null is NaN. *)
Definition numeric_column (col : list scalar) : bool :=
  (forallb (fun v => is_number v || bool_decide (v = SNull)) col
   && existsb is_number col)%bool.

Definition column_of (j : nat) (rws : list (list scalar)) : list scalar :=
  map (fun row => nth j row SNaN) rws.

(** The values of the rows under the given columns: a missing key is NaN. *)
Definition raw_rows (data : list record) (cols : list string) : list (list scalar) :=
  map (fun r => map (fun k => default SNaN (record_get k r)) cols) data.

(** In a float column a null is NaN. *)
Definition fix_null (raw : list (list scalar)) (j : nat) (v : scalar) : scalar :=
  if (bool_decide (v = SNull) && numeric_column (column_of j raw))%bool
  then SNaN else v.

(** [pd.DataFrame(data)] for a list of dictionaries. *)
Definition DataFrame_of (data : list record) : DataFrame :=
  let cols := union_keys data in
  let raw := raw_rows data cols in
  Frame (map SText cols) (map (fun row => imap (fix_null raw) row) raw).

(** [len(df)], [df.empty] *)
Definition len (df : DataFrame) : nat := List.length (rows df).
Definition empty (df : DataFrame) : bool :=
  (Nat.eqb (len df) 0 || Nat.eqb (List.length (columns df)) 0)%bool.

(** [df.to_dict('records')]; labels are unique in every frame the tools
    build, so a record is the row zipped with the labels. *)
Definition to_dict_records (df : DataFrame) : list (list (scalar * pyval)) :=
  map (fun row => combine (columns df) (map PScalar row)) (rows df).

(** [df.head()] *)
Definition head (df : DataFrame) : DataFrame :=
  Frame (columns df) (take 5 (rows df)).

(** *** Writing a frame with the openpyxl engine *)

(** [ExcelWriter.check_extension]: the extension, without its dot, has to
    occur inside one of the engine's extensions. *)
Definition check_extension (ext : string) : bool :=
  let e := if startswith ext "." then text (drop 1 (chars ext)) else ext in
  (contains ".xlsx" e || contains ".xlsm" e)%bool.

(** [ExcelFormatter._format_value]: missing values are written as empty
    text, infinities as words. *)
Definition format_value (v : scalar) : scalar :=
  if isna v then SText EmptyString
  else match v with
       | SFloat (FInf false) => SText "inf"
       | SFloat (FInf true) => SText "-inf"
       | _ => v
       end.

(** The cells [to_excel(index=False)] writes, in the order it writes them:
    the header, then the body column by column. *)
Definition formatted_cells (df : DataFrame) : list (nat * nat * scalar) :=
  (imap (fun j k => (1%nat, S j, format_value k)) (columns df)
   ++ concat (imap (fun j _ =>
                imap (fun i row => (i + 2, S j, format_value (nth j row SNaN)))%nat
                  (rows df))
              (columns df)))%list.

(** Writing cells one by one; on a failure the cells written so far stay. *)
Fixpoint write_cells (cs : list (nat * nat * scalar)) (ws : worksheet)
  : worksheet * option string :=
  match cs with
  | [] => (ws, None)
  | (r, c, v) :: cs' =>
      if (MAX_ROW <? N.of_nat r)%N then (ws, Some (bad_row (N.of_nat r)))
      else match bind_value v with
           | Ok x => write_cells cs' (set_value ws (r, c) x)
           | Raise e => (ws, Some e)
           end
  end.

Definition MAX_ROWS : nat := N.to_nat 1048576.
Definition MAX_COLS : nat := N.to_nat 16384.

(** [df.to_excel(writer, sheet_name=..., index=False)] on a fresh writer,
    whose book has no sheet: the book built, and the exception if any. *)
Definition to_excel (df : DataFrame) (sheet_name : string) : workbook * option string :=
  if (Nat.ltb MAX_ROWS (len df) || Nat.ltb MAX_COLS (List.length (columns df)))%bool
  then ([], Some "This sheet is too large!")
  else
    match set_title ["Sheet"] "Sheet" sheet_name with
    | Raise e => ([Worksheet "Sheet" ∅], Some e)
    | Ok t =>
        let '(ws, err) := write_cells (formatted_cells df) (Worksheet t ∅) in
        ([ws], err)
    end.

(** [with pd.ExcelWriter(path, engine='openpyxl') as writer:
         df.to_excel(writer, sheet_name=sheet_name, index=False)]
    The writer checks the extension, opens the file (which empties it),
    and on leaving the block writes the book, also after a failure. *)
Definition ExcelWriter_to_excel (path : string) (df : DataFrame) (sheet_name : string)
    (fs : filesystem) : exc unit * filesystem :=
  let ext := splitext path in
  if negb (check_extension ext) then
    (Raise ("Invalid extension for engine 'openpyxl': '"
              +:+ (if startswith ext "." then text (drop 1 (chars ext)) else ext) +:+ "'"), fs)
  else if bool_decide (path ∈ unwritable fs) then
    (Raise ("[Errno 13] Permission denied: '" +:+ path +:+ "'"), fs)
  else
    let opened := FS (<[path := FOther]> (files fs)) (unwritable fs) in
    let '(book, err) := to_excel df sheet_name in
    match write_archive book path opened with
    | (Raise e, fs') => (Raise e, fs')
    | (Ok _, fs') =>
        match err with
        | Some e => (Raise e, fs')
        | None => (Ok tt, fs')
        end
    end.

(** [dataframe_to_rows(df, index=False, header=True)] *)
Definition dataframe_to_rows (df : DataFrame) : list (list scalar) :=
  columns df :: (match columns df with
                 | [] => []
                 | _ => rows df
                 end).

(** [worksheet.append(r)] for each row in turn, on a sheet just created:
    every value becomes a cell of the next row. *)
Fixpoint append_row (r : nat) (c : nat) (vals : list scalar) (ws : worksheet)
  : exc worksheet :=
  match vals with
  | [] => Ok ws
  | v :: vals' =>
      let* x := bind_value v in
      append_row r (S c) vals' (put_cell ws (r, c) (Cell x DEFAULT_FONT DEFAULT_FILL))
  end.

Fixpoint append_rows (r : nat) (rws : list (list scalar)) (ws : worksheet)
  : exc worksheet :=
  match rws with
  | [] => Ok ws
  | vals :: rws' =>
      let* ws' := append_row r 1 vals ws in
      append_rows (S r) rws' ws'
  end.

(** *** Reading a sheet *)

(** The openpyxl reader's [_convert_cell], on a book opened with
    [data_only=True]: an empty cell is empty text, a number that is whole
    is an int, a formula is its cached result, an error value is NaN. *)
Definition convert_cell (c : content) : scalar :=
  match c with
  | CEmpty => SText EmptyString
  | CNum (FFin d) =>
      match dec_int d with
      | Some z => SInt z
      | None => SFloat (FFin d)
      end
  | CNum f => SFloat f
  | CBool b => SBool b
  | CStr s => SText s
  | CFormula _ (Some v) => v
  | CFormula _ None => SText EmptyString
  | CError _ => SNaN
  end.

Definition raw (ws : worksheet) (r c : nat) : scalar :=
  convert_cell (value (cell_at ws (r, c))).

(** [v == ''], the test by which trailing cells and rows are trimmed. *)
Definition is_blank (v : scalar) : bool := py_eq v (SText EmptyString).

Definition data_cells (ws : worksheet) : list (nat * nat) :=
  map fst (filter (fun kv => negb (is_blank (convert_cell (value (snd kv)))))
             (map_to_list (cells ws))).

(** The last row and the last column that hold data (0 when none does). *)
Definition last_row (ws : worksheet) : nat := max_list (map fst (data_cells ws)).
Definition last_col (ws : worksheet) : nat := max_list (map snd (data_cells ws)).

(** [get_sheet_data]: rows from row 1 and columns from column 1, trailing
    empty rows dropped, every row padded to the widest one. *)
Definition get_sheet_data (ws : worksheet) : list (list scalar) :=
  map (fun r => map (fun c => raw ws r c) (seq 1 (last_col ws)))
    (seq 1 (last_row ws)).

(** *** The header *)

(** An empty header cell is named after its position. *)
Definition header_label (i : nat) (c : scalar) : scalar :=
  if is_blank c then SText ("Unnamed: " +:+ pretty i) else c.

Definition unnamed_cols (line : list scalar) : list nat :=
  filter (fun i => is_blank (nth i line SNull)) (seq 0 (List.length line)).
Definition named_cols (line : list scalar) : list nat :=
  filter (fun i => negb (is_blank (nth i line SNull))) (seq 0 (List.length line)).

Definition counter : Type := list (scalar * nat).

Definition count_of (counts : counter) (k : scalar) : nat :=
  match List.find (fun p => py_eq (fst p) k) counts with
  | Some (_, n) => n
  | None => O
  end.

Fixpoint set_count (counts : counter) (k : scalar) (n : nat) : counter :=
  match counts with
  | [] => [(k, n)]
  | (k', n') :: counts' =>
      if py_eq k' k then (k', n) :: counts' else (k', n') :: set_count counts' k n
  end.

(** The inner loop of the duplicate mangling: while the label was seen,
    try [old.count]. *)
Fixpoint mangle (fuel : nat) (this_columns : list scalar) (counts : counter)
    (old_col : scalar) (cur_count : nat) (col : scalar) : scalar * counter * nat :=
  match fuel with
  | O => (col, counts, cur_count)
  | S fuel' =>
      if Nat.eqb cur_count 0 then (col, counts, cur_count)
      else
        let counts1 := set_count counts old_col (cur_count + 1) in
        let col1 := SText (py_str old_col +:+ "." +:+ pretty cur_count) in
        if existsb (py_eq col1) this_columns
        then mangle fuel' this_columns counts1 old_col (cur_count + 1) col1
        else mangle fuel' this_columns counts1 old_col (count_of counts1 col1) col1
  end.

Definition dedup_step (st : list scalar * counter) (i : nat) : list scalar * counter :=
  let '(cols, counts) := st in
  match cols !! i with
  | None => st
  | Some col =>
      let '(col', counts', cur) :=
        mangle (S (List.length cols)) cols counts col (count_of counts col) col in
      (<[i := col']> cols, set_count counts' col' (cur + 1))
  end.

(** The labels of a header line: named columns are settled before the
    unnamed ones. *)
Definition infer_columns (line : list scalar) : list scalar :=
  fst (fold_left dedup_step (named_cols line ++ unnamed_cols line)%list
         (imap header_label line, [])).

(** *** Type inference on a column *)

Definition STR_NA_VALUES : list string :=
  ["-1.#IND"; "1.#QNAN"; "1.#IND"; "-1.#QNAN"; "#N/A N/A"; "#N/A"; "N/A";
   "n/a"; "NA"; "<NA>"; "#NA"; "NULL"; "null"; "NaN"; "-NaN"; "nan"; "-nan";
   "None"; EmptyString].

Definition is_na_text (v : scalar) : bool :=
  match v with
  | SText s => str_in s STR_NA_VALUES
  | _ => false
  end.

Definition is_space (a : ascii) : bool :=
  (Nat.eqb (code a) 32 || (Nat.leb 9 (code a) && Nat.leb (code a) 13))%bool.

Definition signed (neg : bool) (z : Z) : Z := if neg then - z else z.

Definition read_sign (l : list ascii) : bool * list ascii :=
  match l with
  | "-"%char :: t => (true, t)
  | "+"%char :: t => (false, t)
  | _ => (false, l)
  end.

Definition digits_Z (l : list ascii) : Z := Z.of_N (int_of_digits l).

(** The decimal literal a text spells, surrounded by optional blanks: an
    int when it has neither point nor exponent. *)
Definition parse_number (l : list ascii) : option (Z + pyfloat) :=
  let '(neg, l1) := read_sign (snd (span is_space l)) in
  let '(ip, l2) := span is_digit l1 in
  let '(fp, l3, has_dot) :=
    match l2 with
    | "."%char :: t => let '(f, t') := span is_digit t in (f, t', true)
    | _ => ([], l2, false)
    end in
  if Nat.eqb (List.length ip + List.length fp) 0 then None
  else
    let mant := signed neg (digits_Z (ip ++ fp)) in
    let scale := - Z.of_nat (List.length fp) in
    let finish (e : Z) (has_exp : bool) (rest : list ascii) :=
      match snd (span is_space rest) with
      | [] =>
          if (has_dot || has_exp)%bool then Some (inr (FFin (Dec mant (scale + e))))
          else Some (inl mant)
      | _ => None
      end in
    match l3 with
    | e :: t =>
        if (ascii_eqb e "e"%char || ascii_eqb e "E"%char)%bool then
          let '(eneg, t1) := read_sign t in
          let '(ed, t2) := span is_digit t1 in
          match ed with
          | [] => None
          | _ => finish (signed eneg (digits_Z ed)) true t2
          end
        else finish 0 false l3
    | [] => finish 0 false l3
    end.

(** [floatify]: the number a text converts to, if any. *)
Definition floatify (s : string) : option (Z + pyfloat) :=
  match parse_number (chars s) with
  | Some x => Some x
  | None =>
      let w := lower s in
      if str_in w ["nan"; "+nan"; "-nan"] then Some (inr FNaN)
      else if str_in w ["inf"; "+inf"; "infinity"; "+infinity"] then Some (inr (FInf false))
      else if str_in w ["-inf"; "-infinity"] then Some (inr (FInf true))
      else None
  end.

Inductive numkind : Type :=
| KNull
| KFloat (f : pyfloat)
| KInt (z : Z)
| KBool (b : bool).

(** What [maybe_convert_numeric] sees in a value; [None] when the value is
    a text that is no number, which makes the conversion fail. *)
Definition classify (v : scalar) : option numkind :=
  if is_na_text v then Some KNull
  else match v with
       | SNull => Some KNull
       | SFloat f => Some (KFloat f)
       | SInt z => Some (KInt z)
       | SBool b => Some (KBool b)
       | SText s =>
           match floatify s with
           | Some (inl z) => Some (KInt z)
           | Some (inr f) => Some (KFloat f)
           | None => None
           end
       end.

Definition bit (b : bool) : Z := if b then 1 else 0.

Definition as_float (k : numkind) : scalar :=
  match k with
  | KNull => SNaN
  | KFloat f => SFloat f
  | KInt z => SFloat (FFin (dec_of_Z z))
  | KBool b => SFloat (FFin (dec_of_Z (bit b)))
  end.
Definition as_int (k : numkind) : scalar :=
  match k with
  | KInt z => SInt z
  | KBool b => SInt (bit b)
  | _ => as_float k
  end.
Definition as_bool (k : numkind) : scalar :=
  match k with
  | KBool b => SBool b
  | _ => as_int k
  end.

Definition seen_float (k : numkind) : bool :=
  match k with
  | KNull | KFloat _ => true
  | _ => false
  end.
Definition seen_int (k : numkind) : bool :=
  match k with
  | KInt _ => true
  | _ => false
  end.

(** The array [maybe_convert_numeric] returns: floats when a float or a
    null was seen, else ints when an int was seen, else bools. *)
Definition convert_numeric (ks : list numkind) : list scalar :=
  if existsb seen_float ks then map as_float ks
  else if existsb seen_int ks then map as_int ks
  else map as_bool ks.

Fixpoint all_some {A} (l : list (option A)) : option (list A) :=
  match l with
  | [] => Some []
  | Some x :: l' => option_map (cons x) (all_some l')
  | None :: _ => None
  end.

(** [sanitize_objects]: the NA markers of an object column become NaN. *)
Definition sanitize (v : scalar) : scalar := if is_na_text v then SNaN else v.

(** What [maybe_convert_bool] sees in a value. *)
Definition bool_word (v : scalar) : option scalar :=
  match v with
  | SBool b => Some (SBool b)
  | SText s =>
      if str_in s ["True"; "TRUE"; "true"] then Some (SBool true)
      else if str_in s ["False"; "FALSE"; "false"] then Some (SBool false)
      else None
  | SNull => Some SNaN
  | SFloat FNaN => Some SNaN
  | _ => None
  end.

(** [_infer_types] on an object column read from a sheet. *)
Definition infer_types (values : list scalar) : list scalar :=
  match all_some (map classify values) with
  | Some ks => convert_numeric ks
  | None =>
      let cleaned := map sanitize values in
      match all_some (map bool_word cleaned) with
      | Some bs => bs
      | None => cleaned
      end
  end.

(** *** [read_excel] *)

(** The frame of a sheet's data: the first line is the header; every
    column of the remaining lines is inferred on its own. *)
Definition parse (data : list (list scalar)) : DataFrame :=
  match data with
  | [] => Frame [] []
  | line :: body =>
      let width := List.length line in
      Frame (infer_columns line)
        (map (fun i =>
                map (fun j => nth i (infer_types (column_of j body)) SNaN)
                  (seq 0 width))
           (seq 0 (List.length body)))
  end.

Definition sheet_readable (ws : worksheet) : bool :=
  forallb (fun kv => finite_content (snd kv)) (map_to_list (cells ws)).

(** [pd.read_excel(path)] and [pd.read_excel(path, sheet_name=name)]:
    the engine is chosen from the file's content, not from its name. *)
Definition read_excel (fs : filesystem) (path : string) (sheet_name : option string)
  : exc DataFrame :=
  match files fs !! path with
  | None => Raise ("[Errno 2] No such file or directory: '" +:+ path +:+ "'")
  | Some FOther =>
      Raise "Excel file format cannot be determined, you must specify an engine manually."
  | Some (FWorkbook wb) =>
      let* ws :=
        match sheet_name with
        | Some name =>
            if str_in name (sheetnames wb) then get_sheet wb name
            else Raise ("Worksheet named '" +:+ name +:+ "' not found")
        | None =>
            match wb with
            | ws :: _ => Ok ws
            | [] => Raise "Worksheet index 0 is invalid, 0 worksheets found"
            end
        end in
      if sheet_readable ws then Ok (parse (get_sheet_data ws))
      else Raise "invalid literal for int() with base 10: 'nan'"
  end.

(** *** Columns as series *)

(** [df[name]]: the values of the column with that label. *)
Fixpoint column_index (labels : list scalar) (name : string) : option nat :=
  match labels with
  | [] => None
  | l :: labels' =>
      if py_eq l (SText name) then Some O else option_map S (column_index labels' name)
  end.

Definition getcol (df : DataFrame) (name : string) : exc (list scalar) :=
  match column_index (columns df) name with
  | Some j => Ok (column_of j (rows df))
  | None => Raise ("'" +:+ name +:+ "'")
  end.

(** [series.astype(str)]: every value, NaN included, becomes its [str]. *)
Definition astype_str (col : list scalar) : list scalar :=
  map (fun v => SText (py_str v)) col.

(** [series.str.contains(pat, na=na, case=False)] with the pattern already
    compiled: a missing element yields [na], a text is searched, anything
    else is treated as missing. *)
Definition str_contains (search : string -> bool) (na : bool) (col : list scalar)
  : list bool :=
  map (fun v => if isna v then na
                else match v with
                     | SText s => search s
                     | _ => na
                     end) col.

(** [df[mask]]: the rows selected by a boolean mask, with their index. *)
Definition select_rows (df : DataFrame) (mask : list bool) : list (nat * list scalar) :=
  map (fun p => (fst p, fst (snd p)))
    (filter (fun p => snd (snd p)) (imap (fun i x => (i, x)) (combine (rows df) mask))).

(** [str(dtype)] of a column *)
Definition dtype (col : list scalar) : string :=
  match col with
  | [] => "object"
  | _ =>
      if forallb (fun v => match v with SBool _ => true | _ => false end) col then "bool"
      else if forallb (fun v => match v with SInt _ => true | _ => false end) col then "int64"
      else if forallb is_number col then "float64"
      else "object"
  end.

Definition is_numeric_dtype (col : list scalar) : bool :=
  (str_eqb (dtype col) "int64" || str_eqb (dtype col) "float64")%bool.

Definition dtypes (df : DataFrame) : list string :=
  map (fun j => dtype (column_of j (rows df))) (seq 0 (List.length (columns df))).

(** The values of one row as [iterrows] yields them, in the common type of
    the columns: when the columns are ints and floats, the ints come out as
    floats. *)
Definition row_values (df : DataFrame) (row : list scalar) : list scalar :=
  if (forallb (fun d => str_eqb d "int64" || str_eqb d "float64") (dtypes df)
      && existsb (fun d => str_eqb d "float64") (dtypes df))%bool
  then map (fun v => match v with
                     | SInt z => SFloat (FFin (dec_of_Z z))
                     | _ => v
                     end) row
  else row.

(** [df.isnull().sum()] of a column *)
Definition null_count (col : list scalar) : Z :=
  Z.of_nat (List.length (filter isna col)).

End Pd.

(** ** The nine tools of [main.py] *)

Module Tools.
Import Py Xl Pd.

(** [{"error": msg}] *)
Definition error (msg : string) : result := [("error", PStr msg)].

Definition file_not_found (file_path : string) : result :=
  error ("ファイルが見つかりません: " +:+ file_path).
Definition unsupported_format : result :=
  error "サポートされていないファイル形式です。.xlsx または .xls ファイルを指定してください。".
Definition sheet_not_found (sheet_name : string) : result :=
  error ("シート '" +:+ sheet_name +:+ "' が見つかりません").
Definition sheet_exists (sheet_name : string) : result :=
  error ("シート '" +:+ sheet_name +:+ "' は既に存在します").
Definition last_sheet : result := error "最後のシートは削除できません".

(** [except Exception as e: return {"error": f"...: {str(e)}"}] *)
Definition unexpected (e : string) : result :=
  error ("エラーが発生しました: " +:+ e).

(** A tool's [try] block runs against the file system and either returns
    or raises; the [except] clause turns a raise into an error object.
    What the block did to the file system before it raised stays done. *)
Definition try_except (body : exc result * filesystem) : result * filesystem :=
  match body with
  | (Ok r, fs') => (r, fs')
  | (Raise e, fs') => (unexpected e, fs')
  end.

(** [s or default] and [if s:] on an optional string *)
Definition truthy (s : option string) : option string :=
  match s with
  | Some x => if truthy_str x then Some x else None
  | None => None
  end.

Definition PNat (n : nat) : pyval := PInt (Z.of_nat n).
Definition key (s : string) : scalar := SText s.

(** *** read_excel_file *)

Definition with_row_numbers (records : list (list (scalar * pyval))) : list pyval :=
  imap (fun idx record =>
          PDict (dict_set (key "_excel_row_number") (PNat (idx + 2)) record))
    records.

Definition shape (df : DataFrame) : pyval :=
  PDict [(key "rows", PNat (len df));
         (key "columns", PNat (List.length (columns df)))].

Definition read_excel_file (file_path : string) (sheet_name : option string)
    (fs : filesystem) : result * filesystem :=
  try_except
    (if negb (exists_ fs file_path) then (Ok (file_not_found file_path), fs)
     else if negb (endswith file_path ".xlsx" || endswith file_path ".xls")%bool
     then (Ok unsupported_format, fs)
     else
       match read_excel fs file_path (truthy sheet_name) with
       | Raise e => (Raise e, fs)
       | Ok df =>
           let data_records := with_row_numbers (to_dict_records df) in
           (Ok [("file_path", PStr file_path);
                ("sheet_name", PStr (default "デフォルトシート" (truthy sheet_name)));
                ("shape", shape df);
                ("columns", PList (map PScalar (columns df)));
                ("data", PList data_records);
                ("head", PList (map PDict (to_dict_records (head df))));
                ("note", PStr "データの行番号は _excel_row_number フィールドで確認できます（Excelの実際の行番号）")],
            fs)
       end).

(** *** list_excel_sheets *)

Definition list_excel_sheets (file_path : string) (fs : filesystem)
  : result * filesystem :=
  try_except
    (if negb (exists_ fs file_path) then (Ok (file_not_found file_path), fs)
     else
       match load_workbook fs file_path with
       | Raise e => (Raise e, fs)
       | Ok workbook =>
           let sheets := sheetnames workbook in
           (Ok [("file_path", PStr file_path);
                ("sheets", PList (map PStr sheets));
                ("total_sheets", PNat (List.length sheets))],
            fs)
       end).

(** *** write_excel_file *)

Definition write_excel_file (file_path : string) (data : list record)
    (sheet_name : string) (fs : filesystem) : result * filesystem :=
  try_except
    (let df := DataFrame_of data in
     match ExcelWriter_to_excel file_path df sheet_name fs with
     | (Raise e, fs') => (Raise e, fs')
     | (Ok _, fs') =>
         (Ok [("status", PStr "success");
              ("file_path", PStr file_path);
              ("sheet_name", PStr sheet_name);
              ("rows_written", PNat (List.length data));
              ("columns", PList (if negb (empty df) then map PScalar (columns df) else []))],
          fs')
     end).

(** *** update_excel_cell *)

(** [worksheet[cell_address] = value]: the item has to be a single cell. *)
Definition setitem (ws : worksheet) (cell_address : string) (v : scalar)
  : exc worksheet :=
  let* it := getitem ws cell_address in
  match it with
  | ICell rc =>
      let* x := bind_value v in
      Ok (set_value ws rc x)
  | _ => Raise "'tuple' object has no attribute 'value'"
  end.

Definition update_excel_cell (file_path sheet_name : string) (row : Z)
    (column : string) (v : scalar) (fs : filesystem) : result * filesystem :=
  try_except
    (if negb (exists_ fs file_path) then (Ok (file_not_found file_path), fs)
     else
       match load_workbook fs file_path with
       | Raise e => (Raise e, fs)
       | Ok workbook =>
           if negb (str_in sheet_name (sheetnames workbook))
           then (Ok (sheet_not_found sheet_name), fs)
           else
             let cell_address := column +:+ str_of_Z row in
             match (let* worksheet := get_sheet workbook sheet_name in
                    setitem worksheet cell_address v) with
             | Raise e => (Raise e, fs)
             | Ok worksheet' =>
                 match save (put_sheet workbook sheet_name worksheet') file_path fs with
                 | (Raise e, fs') => (Raise e, fs')
                 | (Ok _, fs') =>
                     (Ok [("status", PStr "success");
                          ("file_path", PStr file_path);
                          ("sheet_name", PStr sheet_name);
                          ("cell", PStr cell_address);
                          ("value", PScalar v)],
                      fs')
                 end
             end
       end).

(** *** format_excel_cells *)

Definition truthy_int (n : option Z) : option Z :=
  match n with
  | Some z => if z =? 0 then None else Some z
  | None => None
  end.

(** The font built from [font_kwargs] when that dictionary is not empty:
    a new font that carries the requested fields and nothing else. *)
Definition new_font (font_color : option string) (bold : bool) (font_size : option Z)
  : option (exc font) :=
  match truthy font_color, bold, truthy_int font_size with
  | None, false, None => None
  | color, _, size =>
      Some (let* c := match color with
                      | Some s => let* c := Color s in Ok (Some c)
                      | None => Ok None
                      end in
            Ok (Font None size (if bold then Some true else None) None c))
  end.

(** [PatternFill(start_color=bg, end_color=bg, fill_type="solid")] *)
Definition solid_fill (bg_color : string) : exc fill :=
  let* fg := Color bg_color in
  let* bg := Color bg_color in
  Ok (PatternFill (Some "solid") fg bg).

(** The body of the inner loop, for one cell. *)
Definition format_cell (font_color bg_color : option string) (bold : bool)
    (font_size : option Z) (ws : worksheet) (rc : nat * nat) : exc worksheet :=
  let* ws1 := match new_font font_color bold font_size with
              | Some mk => let* f := mk in Ok (set_font ws rc f)
              | None => Ok ws
              end in
  match truthy bg_color with
  | Some bg => let* f := solid_fill bg in Ok (set_fill ws1 rc f)
  | None => Ok ws1
  end.

Fixpoint format_row (font_color bg_color : option string) (bold : bool)
    (font_size : option Z) (row : list (nat * nat)) (ws : worksheet) : exc worksheet :=
  match row with
  | [] => Ok ws
  | rc :: row' =>
      let* ws' := format_cell font_color bg_color bold font_size ws rc in
      format_row font_color bg_color bold font_size row' ws'
  end.

Fixpoint format_rows (font_color bg_color : option string) (bold : bool)
    (font_size : option Z) (rws : list (list (nat * nat))) (ws : worksheet)
  : exc worksheet :=
  match rws with
  | [] => Ok ws
  | row :: rws' =>
      let* ws' := format_row font_color bg_color bold font_size row ws in
      format_rows font_color bg_color bold font_size rws' ws'
  end.

(** [for row in worksheet[cell_range]: for cell in row: ...]: a single
    cell cannot be iterated, and neither can the cells of a flat tuple. *)
Definition format_range (font_color bg_color : option string) (bold : bool)
    (font_size : option Z) (cell_range : string) (ws : worksheet) : exc worksheet :=
  let* it := getitem ws cell_range in
  match it with
  | ICell _ => Raise "'Cell' object is not iterable"
  | ITuple [] => Ok ws
  | ITuple (_ :: _) => Raise "'Cell' object is not iterable"
  | ITuples rws => format_rows font_color bg_color bold font_size rws ws
  end.

Definition format_excel_cells (file_path sheet_name cell_range : string)
    (font_color bg_color : option string) (bold : bool) (font_size : option Z)
    (fs : filesystem) : result * filesystem :=
  try_except
    (if negb (exists_ fs file_path) then (Ok (file_not_found file_path), fs)
     else
       match load_workbook fs file_path with
       | Raise e => (Raise e, fs)
       | Ok workbook =>
           if negb (str_in sheet_name (sheetnames workbook))
           then (Ok (sheet_not_found sheet_name), fs)
           else
             match (let* worksheet := get_sheet workbook sheet_name in
                    format_range font_color bg_color bold font_size cell_range worksheet) with
             | Raise e => (Raise e, fs)
             | Ok worksheet' =>
                 match save (put_sheet workbook sheet_name worksheet') file_path fs with
                 | (Raise e, fs') => (Raise e, fs')
                 | (Ok _, fs') =>
                     (Ok [("status", PStr "success");
                          ("file_path", PStr file_path);
                          ("sheet_name", PStr sheet_name);
                          ("cell_range", PStr cell_range);
                          ("formatting_applied", PBool true)],
                      fs')
                 end
             end
       end).

(** *** add_excel_sheet *)

(** [if data:] on an optional list *)
Definition truthy_list {A} (data : option (list A)) : option (list A) :=
  match data with
  | Some (x :: l) => Some (x :: l)
  | _ => None
  end.

Definition add_excel_sheet (file_path sheet_name : string)
    (data : option (list record)) (fs : filesystem) : result * filesystem :=
  try_except
    (match (if negb (exists_ fs file_path) then Ok new_workbook
            else load_workbook fs file_path) with
     | Raise e => (Raise e, fs)
     | Ok workbook =>
         if str_in sheet_name (sheetnames workbook)
         then (Ok (sheet_exists sheet_name), fs)
         else
           match (let* created := create_sheet workbook sheet_name in
                  match truthy_list data with
                  | Some d =>
                      let* worksheet :=
                        append_rows 1 (dataframe_to_rows (DataFrame_of d))
                          (Worksheet (snd created) ∅) in
                      Ok (workbook ++ [worksheet])%list
                  | None => Ok (fst created)
                  end) with
           | Raise e => (Raise e, fs)
           | Ok workbook' =>
               match save workbook' file_path fs with
               | (Raise e, fs') => (Raise e, fs')
               | (Ok _, fs') =>
                   (Ok [("status", PStr "success");
                        ("file_path", PStr file_path);
                        ("sheet_name", PStr sheet_name);
                        ("rows_added",
                         PNat (match truthy_list data with
                               | Some d => List.length d
                               | None => 0
                               end))],
                    fs')
               end
           end
     end).

(** *** delete_excel_sheet *)

Definition delete_excel_sheet (file_path sheet_name : string) (fs : filesystem)
  : result * filesystem :=
  try_except
    (if negb (exists_ fs file_path) then (Ok (file_not_found file_path), fs)
     else
       match load_workbook fs file_path with
       | Raise e => (Raise e, fs)
       | Ok workbook =>
           if negb (str_in sheet_name (sheetnames workbook))
           then (Ok (sheet_not_found sheet_name), fs)
           else if Nat.eqb (List.length (sheetnames workbook)) 1
           then (Ok last_sheet, fs)
           else
             let workbook' := remove_sheet workbook sheet_name in
             match save workbook' file_path fs with
             | (Raise e, fs') => (Raise e, fs')
             | (Ok _, fs') =>
                 (Ok [("status", PStr "success");
                      ("file_path", PStr file_path);
                      ("deleted_sheet", PStr sheet_name);
                      ("remaining_sheets", PList (map PStr (sheetnames workbook')))],
                  fs')
             end
       end).

(** *** excel_data_summary and find_excel_row_by_content *)

Section Opaque.

(** Three library computations are taken as they are: the byte count of a
    frame, the descriptive statistics of its numeric columns, and the
    compilation of a regular expression with [re.IGNORECASE] into a search
    function (which raises on a malformed pattern). *)
Variable memory_usage : DataFrame -> Z.
Variable describe : DataFrame -> exc pyval.
Variable re_compile : string -> exc (string -> bool).

Definition per_column (f : list scalar -> pyval) (df : DataFrame) : pyval :=
  PDict (imap (fun j label => (label, f (column_of j (rows df)))) (columns df)).

(** [df.select_dtypes(include=['number'])] *)
Definition numeric_columns (df : DataFrame) : list nat :=
  filter (fun j => is_numeric_dtype (column_of j (rows df)))
    (seq 0 (List.length (columns df))).

Definition select_columns (df : DataFrame) (js : list nat) : DataFrame :=
  Frame (map (fun j => nth j (columns df) SNull) js)
    (map (fun row => map (fun j => nth j row SNaN) js) (rows df)).

Definition excel_data_summary (file_path : string) (sheet_name : option string)
    (fs : filesystem) : result * filesystem :=
  try_except
    (if negb (exists_ fs file_path) then (Ok (file_not_found file_path), fs)
     else
       match read_excel fs file_path (truthy sheet_name) with
       | Raise e => (Raise e, fs)
       | Ok df =>
           let summary :=
             [("file_path", PStr file_path);
              ("sheet_name", PStr (default "デフォルトシート" (truthy sheet_name)));
              ("shape", shape df);
              ("columns", PList (map PScalar (columns df)));
              ("data_types", per_column (fun col => PStr (dtype col)) df);
              ("null_counts", per_column (fun col => PInt (null_count col)) df);
              ("memory_usage", PInt (memory_usage df))] in
           match numeric_columns df with
           | [] => (Ok summary, fs)
           | js =>
               match describe (select_columns df js) with
               | Raise e => (Raise e, fs)
               | Ok stats => (Ok (summary ++ [("numeric_summary", stats)])%list, fs)
               end
           end
       end).

Definition match_entry (df : DataFrame) (m : nat * list scalar) : pyval :=
  let '(idx, row) := m in
  PDict [(key "excel_row_number", PNat (idx + 2));
         (key "pandas_index", PNat idx);
         (key "data", PDict (combine (columns df) (map PScalar (row_values df row))))].

Definition find_excel_row_by_content (file_path sheet_name search_column
    search_value : string) (fs : filesystem) : result * filesystem :=
  try_except
    (if negb (exists_ fs file_path) then (Ok (file_not_found file_path), fs)
     else
       match (let* df := read_excel fs file_path (Some sheet_name) in
              let* col := getcol df search_column in
              let* search := re_compile search_value in
              Ok (df, select_rows df (str_contains search false (astype_str col)))) with
       | Raise e => (Raise e, fs)
       | Ok (df, []) =>
           (Ok [("found", PBool false);
                ("message", PStr ("'" +:+ search_value +:+ "' が列 '" +:+ search_column
                                    +:+ "' で見つかりませんでした"))],
            fs)
       | Ok (df, matches) =>
           let results := map (match_entry df) matches in
           (Ok [("found", PBool true);
                ("search_column", PStr search_column);
                ("search_value", PStr search_value);
                ("matches", PList results);
                ("total_matches", PNat (List.length results))],
            fs)
       end).

End Opaque.

End Tools.

(** * Properties of the tools *)

Module Facts.
Import Py Xl Pd Tools.

(** ** Reading the file system *)


(** The cell of a stored document at a sheet and a coordinate. *)
Definition doc_cell (fs : filesystem) (path sheet : string) (rc : nat * nat)
  : option cell :=
  match files fs !! path with
  | Some (FWorkbook wb) =>
      match get_sheet wb sheet with
      | Ok ws => Some (cell_at ws rc)
      | Raise _ => None
      end
  | _ => None
  end.

(** The result shapes of section 6 of the specification. *)
Definition error_object (r : result) : Prop := exists msg, r = error msg.

(** The error results that come from checking the arguments. *)
Definition validation_error (r : result) : Prop :=
  (exists p, r = file_not_found p) \/ (exists s, r = sheet_not_found s)
  \/ (exists s, r = sheet_exists s) \/ r = last_sheet.

(** ** Basic lemmas *)

Lemma exists_spec fs path : exists_ fs path = true <-> is_Some (files fs !! path).
Proof. unfold exists_. apply bool_decide_eq_true. Qed.

Lemma exists_None fs path : files fs !! path = None -> exists_ fs path = false.
Proof.
  intros H. unfold exists_. apply bool_decide_eq_false. rewrite H. by intros [? ?].
Qed.

Lemma exists_Some fs path f : files fs !! path = Some f -> exists_ fs path = true.
Proof. intros H. apply exists_spec. eauto. Qed.

Lemma load_workbook_file fs path wb :
  load_workbook fs path = Ok wb -> files fs !! path = Some (FWorkbook wb).
Proof.
  unfold load_workbook. repeat case_match; intros; simplify_eq; done.
Qed.

Lemma load_workbook_exists fs path wb :
  load_workbook fs path = Ok wb -> exists_ fs path = true.
Proof. intros H. eapply exists_Some, load_workbook_file, H. Qed.

Lemma str_eqb_true s t : str_eqb s t = true <-> s = t.
Proof. apply String.eqb_eq. Qed.

Lemma str_eqb_refl s : str_eqb s s = true.
Proof. by apply str_eqb_true. Qed.

Lemma str_in_sheetnames wb name :
  str_in name (sheetnames wb) = true <-> exists ws, get_sheet wb name = Ok ws.
Proof.
  induction wb as [|ws wb IH]; simpl.
  - split; [done | by intros [? ?]].
  - destruct (str_eqb name (title ws)) eqn:E.
    + apply str_eqb_true in E. subst. rewrite str_eqb_refl. split; eauto.
    + assert (str_eqb (title ws) name = false) as ->.
      { destruct (str_eqb (title ws) name) eqn:E'; [|done].
        apply str_eqb_true in E'. subst. by rewrite str_eqb_refl in E. }
      simpl. apply IH.
Qed.

Lemma get_sheet_title wb name ws : get_sheet wb name = Ok ws -> title ws = name.
Proof.
  induction wb as [|w wb IH]; simpl; [done|].
  destruct (str_eqb (title w) name) eqn:E; [|done].
  intros [= ->]. by apply str_eqb_true.
Qed.

Lemma get_sheet_in wb name ws :
  get_sheet wb name = Ok ws -> str_in name (sheetnames wb) = true.
Proof. intros H. apply str_in_sheetnames. eauto. Qed.

Lemma remove_sheet_length wb name :
  str_in name (sheetnames wb) = true ->
  S (List.length (remove_sheet wb name)) = List.length wb.
Proof.
  intros [ws H]%str_in_sheetnames. revert H.
  induction wb as [|w wb IH]; simpl; [done|].
  destruct (str_eqb (title w) name); [done|].
  intros H. simpl. by rewrite IH.
Qed.

Lemma stored_length wb : List.length (stored wb) = List.length wb.
Proof. apply length_map. Qed.

(** An unexpected failure and a success never look like a validation
    error: the messages start differently. *)
Lemma unexpected_not_validation e : ~ validation_error (unexpected e).
Proof.
  intros [[p H]|[[s H]|[[s H]|H]]]; cbv in H; discriminate.
Qed.

End Facts.

(** ** Sheets: collisions, the last sheet, validation errors *)

Module Sheets.
Import Py Xl Pd Tools Facts.

(** C9: adding a sheet named Sheet at a path where no file exists collides
    with the default sheet of the new workbook: the tool returns the
    already-exists error and the file system is unchanged, so no file is
    created. *)
Theorem add_default_name_collides (file_path : string) (data : option (list record))
    (fs : filesystem) :
  files fs !! file_path = None ->
  add_excel_sheet file_path "Sheet" data fs = (sheet_exists "Sheet", fs).
Proof.
  intros H. unfold add_excel_sheet. by rewrite (exists_None _ _ H).
Qed.

Lemma add_default_name_collides_witness :
  files (FS ∅ ∅) !! "new.xlsx" = None
  /\ add_excel_sheet "new.xlsx" "Sheet" None (FS ∅ ∅) = (sheet_exists "Sheet", FS ∅ ∅).
Proof.
  split; [reflexivity | apply add_default_name_collides; reflexivity].
Defined.



Definition one_sheet_fs : filesystem :=
  FS {[ "t.xlsx" := FWorkbook [Worksheet "S1" ∅] ]} ∅.


Lemma success_not_validation r : get "status" r <> None -> ~ validation_error r.
Proof.
  intros Hs [[p H]|[[s H]|[[s H]|H]]]; subst; by apply Hs.
Qed.

Ltac not_validation :=
  exfalso;
  first [ eapply unexpected_not_validation; eassumption
        | eapply success_not_validation; [|eassumption]; by simpl ].

Ltac split_tool H :=
  unfold try_except in H;
  repeat (case_match; simplify_eq; simpl in *; try done).

Lemma update_validation file_path sheet_name row column v fs r fs' :
  update_excel_cell file_path sheet_name row column v fs = (r, fs') ->
  validation_error r -> fs' = fs.
Proof.
  unfold update_excel_cell. intros H Hv. split_tool H; not_validation.
Qed.

Lemma format_validation file_path sheet_name cell_range fc bg bold size fs r fs' :
  format_excel_cells file_path sheet_name cell_range fc bg bold size fs = (r, fs') ->
  validation_error r -> fs' = fs.
Proof.
  unfold format_excel_cells. intros H Hv. split_tool H; not_validation.
Qed.

Lemma delete_validation file_path sheet_name fs r fs' :
  delete_excel_sheet file_path sheet_name fs = (r, fs') ->
  validation_error r -> fs' = fs.
Proof.
  unfold delete_excel_sheet. intros H Hv. split_tool H; not_validation.
Qed.

Lemma add_validation file_path sheet_name data fs r fs' :
  add_excel_sheet file_path sheet_name data fs = (r, fs') ->
  validation_error r -> fs' = fs.
Proof.
  unfold add_excel_sheet. intros H Hv. split_tool H; not_validation.
Qed.

(** C10: in update_excel_cell, format_excel_cells, delete_excel_sheet and
    add_excel_sheet, a result that is a validation error (file not found,
    sheet not found, sheet already exists, last sheet) comes with the file
    system exactly as it was before the call. *)
Theorem validation_errors_change_nothing :
  (forall file_path sheet_name row column v fs,
      validation_error (fst (update_excel_cell file_path sheet_name row column v fs)) ->
      snd (update_excel_cell file_path sheet_name row column v fs) = fs)
  /\ (forall file_path sheet_name cell_range fc bg bold size fs,
      validation_error
        (fst (format_excel_cells file_path sheet_name cell_range fc bg bold size fs)) ->
      snd (format_excel_cells file_path sheet_name cell_range fc bg bold size fs) = fs)
  /\ (forall file_path sheet_name fs,
      validation_error (fst (delete_excel_sheet file_path sheet_name fs)) ->
      snd (delete_excel_sheet file_path sheet_name fs) = fs)
  /\ (forall file_path sheet_name data fs,
      validation_error (fst (add_excel_sheet file_path sheet_name data fs)) ->
      snd (add_excel_sheet file_path sheet_name data fs) = fs).
Proof.
  repeat split; intros.
  - eapply update_validation; [apply surjective_pairing | done].
  - eapply format_validation; [apply surjective_pairing | done].
  - eapply delete_validation; [apply surjective_pairing | done].
  - eapply add_validation; [apply surjective_pairing | done].
Qed.

(** The four kinds of validation error do occur, each with the file system
    untouched. *)
Example validation_errors_occur :
  update_excel_cell "none.xlsx" "S1" 1 "A" (SInt 1) one_sheet_fs
    = (file_not_found "none.xlsx", one_sheet_fs)
  /\ format_excel_cells "t.xlsx" "S2" "A1:B2" None None true None one_sheet_fs
    = (sheet_not_found "S2", one_sheet_fs)
  /\ add_excel_sheet "t.xlsx" "S1" None one_sheet_fs
    = (sheet_exists "S1", one_sheet_fs)
  /\ delete_excel_sheet "t.xlsx" "S1" one_sheet_fs = (last_sheet, one_sheet_fs).
Proof. repeat split; vm_compute; reflexivity. Qed.

End Sheets.

(** ** The shape of results *)

Module Shapes.
Import Py Xl Pd Tools Facts.




(** An exception raised anywhere in a tool's body becomes an error object. *)
Lemma raise_is_caught e fs : fst (try_except (Raise e, fs)) = unexpected e.
Proof. reflexivity. Qed.


End Shapes.

(** ** Formatting a range *)

Module Formatting.
Import Py Xl Pd Tools Facts.

(** The font and the fill a call asks for, once and for all cells: [None]
    when the call leaves that style alone. *)
Definition requested_font (font_color : option string) (bold : bool)
    (font_size : option Z) : exc (option font) :=
  match new_font font_color bold font_size with
  | None => Ok None
  | Some mk => let* f := mk in Ok (Some f)
  end.

Definition requested_fill (bg_color : option string) : exc (option fill) :=
  match truthy bg_color with
  | None => Ok None
  | Some bg => let* f := solid_fill bg in Ok (Some f)
  end.

(** A cell with its font and fill replaced where a new one is given. *)
Definition restyle (nf : option font) (ng : option fill) (c : cell) : cell :=
  Cell (value c) (default (cfont c) nf) (default (cfill c) ng).

Definition style_cell (nf : option font) (ng : option fill) (ws : worksheet)
    (rc : nat * nat) : worksheet :=
  put_cell ws rc (restyle nf ng (cell_at ws rc)).

Lemma cell_at_put ws rc c rc' :
  cell_at (put_cell ws rc c) rc' = if decide (rc = rc') then c else cell_at ws rc'.
Proof.
  unfold cell_at, put_cell. simpl. rewrite lookup_insert. by case_decide.
Qed.

Lemma restyle_none c : restyle None None c = c.
Proof. by destruct c. Qed.

Lemma restyle_idem nf ng c : restyle nf ng (restyle nf ng c) = restyle nf ng c.
Proof. destruct c, nf, ng; reflexivity. Qed.

Lemma put_cell_same ws rc : cells ws !! rc = Some (cell_at ws rc) -> put_cell ws rc (cell_at ws rc) = ws.
Proof.
  intros H. destruct ws as [t m]. unfold put_cell. simpl in *. f_equal.
  by apply insert_id.
Qed.

(** What the loop body does to the sheet, up to the cells it reads back. *)
Lemma format_cell_spec fc bg bold size nf ng ws rc :
  requested_font fc bold size = Ok nf ->
  requested_fill bg = Ok ng ->
  exists ws', format_cell fc bg bold size ws rc = Ok ws'
              /\ title ws' = title ws
              /\ forall rc', cell_at ws' rc' = cell_at (style_cell nf ng ws rc) rc'.
Proof.
  unfold requested_font, requested_fill, format_cell. intros Hf Hg.
  destruct (new_font fc bold size) as [mk|].
  - destruct mk as [f|e]; simpl in Hf; simplify_eq. simpl.
    destruct (truthy bg) as [b|].
    + destruct (solid_fill b) as [g|e]; simpl in Hg; simplify_eq. simpl.
      eexists. split; [reflexivity|]. split; [done|]. intros rc'.
      unfold set_fill, set_font, style_cell, restyle.
      rewrite !cell_at_put. by repeat case_decide.
    + simplify_eq. eexists. split; [reflexivity|]. split; [done|]. intros rc'.
      unfold set_font, style_cell, restyle. by rewrite !cell_at_put.
  - simplify_eq. simpl. destruct (truthy bg) as [b|].
    + destruct (solid_fill b) as [g|e]; simpl in Hg; simplify_eq. simpl.
      eexists. split; [reflexivity|]. split; [done|]. intros rc'.
      unfold set_fill, style_cell, restyle. by rewrite !cell_at_put.
    + simplify_eq. eexists. split; [reflexivity|]. split; [done|]. intros rc'.
      unfold style_cell. rewrite cell_at_put, restyle_none. by case_decide; subst.
Qed.

Lemma cell_at_style nf ng ws rc rc' :
  cell_at (style_cell nf ng ws rc) rc'
  = if decide (rc = rc') then restyle nf ng (cell_at ws rc') else cell_at ws rc'.
Proof. unfold style_cell. rewrite cell_at_put. by case_decide; subst. Qed.

(** The cells of a row after the inner loop. *)
Lemma format_row_spec fc bg bold size nf ng row : forall ws,
  requested_font fc bold size = Ok nf ->
  requested_fill bg = Ok ng ->
  exists ws', format_row fc bg bold size row ws = Ok ws'
              /\ title ws' = title ws
              /\ forall rc, cell_at ws' rc
                 = if bool_decide (rc ∈ row) then restyle nf ng (cell_at ws rc)
                   else cell_at ws rc.
Proof.
  induction row as [|rc0 row IH]; intros ws Hf Hg; cbn [format_row].
  - exists ws. split; [done|]. split; [done|]. intros rc.
    rewrite bool_decide_eq_false_2; [done | apply not_elem_of_nil].
  - destruct (format_cell_spec fc bg bold size nf ng ws rc0 Hf Hg) as (ws1 & -> & Ht1 & H1).
    cbn [ebind]. destruct (IH ws1 Hf Hg) as (ws2 & -> & Ht2 & H2).
    exists ws2. split; [done|]. split; [congruence|]. intros rc.
    rewrite H2, !H1, !cell_at_style.
    destruct (decide (rc0 = rc)) as [->|Hne].
    + rewrite (bool_decide_eq_true_2 (rc ∈ rc :: row)); [|by left].
      case_bool_decide; [apply restyle_idem | done].
    + case_bool_decide as Hin.
      * rewrite bool_decide_eq_true_2; [done | by right].
      * rewrite bool_decide_eq_false_2; [done|].
        intros [?|?]%elem_of_cons; [by subst | done].
Qed.

(** The cells of a sheet after both loops. *)
Lemma format_rows_spec fc bg bold size nf ng rws : forall ws,
  requested_font fc bold size = Ok nf ->
  requested_fill bg = Ok ng ->
  exists ws', format_rows fc bg bold size rws ws = Ok ws'
              /\ title ws' = title ws
              /\ forall rc, cell_at ws' rc
                 = if bool_decide (rc ∈ concat rws) then restyle nf ng (cell_at ws rc)
                   else cell_at ws rc.
Proof.
  induction rws as [|row rws IH]; intros ws Hf Hg; cbn [format_rows concat].
  - exists ws. split; [done|]. split; [done|]. intros rc.
    rewrite bool_decide_eq_false_2; [done | apply not_elem_of_nil].
  - destruct (format_row_spec fc bg bold size nf ng row ws Hf Hg) as (ws1 & -> & Ht1 & H1).
    cbn [ebind]. destruct (IH ws1 Hf Hg) as (ws2 & -> & Ht2 & H2).
    exists ws2. split; [done|]. split; [congruence|]. intros rc.
    rewrite H2, !H1.
    rewrite (bool_decide_ext (rc ∈ (row ++ concat rws)%list) (rc ∈ row \/ rc ∈ concat rws))
      by apply elem_of_app.
    rewrite bool_decide_or.
    destruct (bool_decide (rc ∈ row)), (bool_decide (rc ∈ concat rws)); simpl;
      rewrite ?restyle_idem; done.
Qed.

(** *** Through [put_sheet], [stored] and [save] *)

Lemma get_sheet_put wb name ws ws' :
  get_sheet wb name = Ok ws -> title ws' = name ->
  get_sheet (put_sheet wb name ws') name = Ok ws'.
Proof.
  intros H Ht. induction wb as [|w wb IH]; simpl in *; [done|].
  destruct (str_eqb (title w) name) eqn:E; simpl.
  - by rewrite Ht, str_eqb_refl.
  - rewrite E. by apply IH.
Qed.

Lemma put_sheet_same wb name ws :
  get_sheet wb name = Ok ws -> put_sheet wb name ws = wb.
Proof.
  induction wb as [|w wb IH]; simpl; [done|].
  destruct (str_eqb (title w) name); [by intros [= ->]|].
  intros H. by rewrite IH.
Qed.

Lemma put_sheet_cons wb name ws ws' :
  get_sheet wb name = Ok ws -> exists w wb', put_sheet wb name ws' = w :: wb'.
Proof.
  destruct wb as [|w wb]; simpl; [done|]. intros _.
  destruct (str_eqb (title w) name); eauto.
Qed.

Lemma get_sheet_stored wb name :
  get_sheet (stored wb) name
  = match get_sheet wb name with
    | Ok w => Ok (stored_sheet w)
    | Raise e => Raise e
    end.
Proof.
  induction wb as [|w wb IH]; simpl; [done|].
  destruct (str_eqb (title w) name); [done | apply IH].
Qed.

Lemma cell_at_stored ws rc :
  cfont (cell_at (stored_sheet ws) rc) = cfont (cell_at ws rc)
  /\ cfill (cell_at (stored_sheet ws) rc) = cfill (cell_at ws rc)
  /\ value (cell_at (stored_sheet ws) rc) = stored_value (value (cell_at ws rc)).
Proof.
  unfold cell_at, stored_sheet. simpl. rewrite lookup_omap.
  destruct (cells ws !! rc) as [c|]; simpl; [|done].
  unfold stored_cell. destruct (value c) eqn:Hv; simpl; try done.
  case_bool_decide; subst; simpl; by rewrite ?Hv.
Qed.

Lemma save_writable wb w wb' path fs :
  wb = w :: wb' -> path ∉ unwritable fs ->
  save wb path fs
  = (Ok tt, FS (<[path := FWorkbook (stored wb)]> (files fs)) (unwritable fs)).
Proof.
  intros -> Hw. unfold save. by rewrite bool_decide_eq_false_2.
Qed.

Lemma doc_cell_saved (fs : filesystem) path wb name rc :
  doc_cell (FS (<[path := FWorkbook (stored wb)]> (files fs)) (unwritable fs)) path name rc
  = match get_sheet wb name with
    | Ok w => Some (cell_at (stored_sheet w) rc)
    | Raise _ => None
    end.
Proof.
  unfold doc_cell. simpl. rewrite lookup_insert_eq, get_sheet_stored.
  by destruct (get_sheet wb name).
Qed.

(** *** What the requested styles are *)

Lemma requested_font_none fc bold size :
  requested_font fc bold size = Ok None
  <-> truthy fc = None /\ bold = false /\ truthy_int size = None.
Proof.
  unfold requested_font, new_font.
  destruct (truthy fc) as [s|], bold, (truthy_int size) as [z|]; simpl;
    try (destruct (Color s); simpl); split; intros; try done;
    try (destruct_and?; done).
Qed.

Lemma requested_font_some fc bold size f :
  requested_font fc bold size = Ok (Some f) ->
  font_name f = None /\ font_italic f = None
  /\ font_size f = truthy_int size
  /\ font_bold f = (if bold then Some true else None)
  /\ match truthy fc with
     | Some s => exists c, Color s = Ok c /\ font_color f = Some c
     | None => font_color f = None
     end.
Proof.
  unfold requested_font, new_font.
  destruct (truthy fc) as [s|], bold, (truthy_int size) as [z|]; simpl;
    try (destruct (Color s) as [c|]; simpl); intros; simplify_eq; simpl;
    repeat split; eauto.
Qed.

Lemma requested_fill_none bg : requested_fill bg = Ok None <-> truthy bg = None.
Proof.
  unfold requested_fill, solid_fill. destruct (truthy bg) as [b|]; simpl; [|done].
  destruct (Color b); simpl; split; done.
Qed.

Lemma requested_fill_some bg g :
  requested_fill bg = Ok (Some g) ->
  exists b c, truthy bg = Some b /\ Color b = Ok c
              /\ g = PatternFill (Some "solid") c c.
Proof.
  unfold requested_fill, solid_fill. destruct (truthy bg) as [b|]; simpl; [|done].
  destruct (Color b) as [c|] eqn:Hc; simpl; intros; simplify_eq. eauto.
Qed.

(** *** The tool *)

Definition formatted (file_path sheet_name cell_range : string) : result :=
  [("status", PStr "success");
   ("file_path", PStr file_path);
   ("sheet_name", PStr sheet_name);
   ("cell_range", PStr cell_range);
   ("formatting_applied", PBool true)].

(** The whole tool on a document that loads, a sheet that exists, a range
    of rows, valid colours and a writable path. *)
Lemma format_excel_cells_spec file_path sheet_name cell_range fc bg bold size
    fs wb ws rws nf ng :
  load_workbook fs file_path = Ok wb ->
  get_sheet wb sheet_name = Ok ws ->
  getitem ws cell_range = Ok (ITuples rws) ->
  requested_font fc bold size = Ok nf ->
  requested_fill bg = Ok ng ->
  file_path ∉ unwritable fs ->
  exists ws',
    format_rows fc bg bold size rws ws = Ok ws'
    /\ title ws' = sheet_name
    /\ format_excel_cells file_path sheet_name cell_range fc bg bold size fs
       = (formatted file_path sheet_name cell_range,
          FS (<[file_path := FWorkbook (stored (put_sheet wb sheet_name ws'))]> (files fs))
             (unwritable fs))
    /\ forall rc, cell_at ws' rc
         = if bool_decide (rc ∈ concat rws) then restyle nf ng (cell_at ws rc)
           else cell_at ws rc.
Proof.
  intros Hload Hsheet Hrange Hf Hg Hw.
  destruct (format_rows_spec fc bg bold size nf ng rws ws Hf Hg) as (ws' & Hrows & Ht & Hcells).
  exists ws'. split; [done|]. split; [by rewrite Ht; eapply get_sheet_title|].
  split; [|done].
  unfold format_excel_cells, format_range.
  rewrite (load_workbook_exists _ _ _ Hload), Hload. simpl.
  rewrite (get_sheet_in _ _ _ Hsheet), Hsheet. simpl.
  rewrite Hrange. simpl. rewrite Hrows.
  destruct (put_sheet_cons wb sheet_name ws ws' Hsheet) as (w & wb' & Hput).
  by rewrite (save_writable _ _ _ _ _ Hput Hw).
Qed.

(** C1, as the code has it: on a document that loads, a sheet that exists,
    a range of rows, valid colours and a writable path, the call succeeds
    and on every cell of the range
    - the font is replaced by one new font when a font colour, the bold
      flag or a font size is supplied, and is kept when none of them is;
      the new font carries the supplied fields and no other: its size is
      the supplied size or none, its bold flag is set or absent, its colour
      is the supplied colour or none, its name and italic flag are absent;
    - the fill is replaced by a solid fill of the background colour when
      one is supplied, and is kept otherwise;
    cells outside the range keep their font and their fill. *)
Theorem format_replaces_font_and_fill (file_path sheet_name cell_range : string)
    (fc bg : option string) (bold : bool) (size : option Z) (fs : filesystem)
    (wb : workbook) (ws : worksheet) (rws : list (list (nat * nat)))
    (nf : option font) (ng : option fill) :
  load_workbook fs file_path = Ok wb ->
  get_sheet wb sheet_name = Ok ws ->
  getitem ws cell_range = Ok (ITuples rws) ->
  requested_font fc bold size = Ok nf ->
  requested_fill bg = Ok ng ->
  file_path ∉ unwritable fs ->
  let out := format_excel_cells file_path sheet_name cell_range fc bg bold size fs in
  fst out = formatted file_path sheet_name cell_range
  /\ (forall rc, exists c',
        doc_cell (snd out) file_path sheet_name rc = Some c'
        /\ cfont c' = (if bool_decide (rc ∈ concat rws)
                       then default (cfont (cell_at ws rc)) nf
                       else cfont (cell_at ws rc))
        /\ cfill c' = (if bool_decide (rc ∈ concat rws)
                       then default (cfill (cell_at ws rc)) ng
                       else cfill (cell_at ws rc)))
  /\ (nf = None <-> truthy fc = None /\ bold = false /\ truthy_int size = None)
  /\ (forall f, nf = Some f ->
        font_name f = None /\ font_italic f = None
        /\ font_size f = truthy_int size
        /\ font_bold f = (if bold then Some true else None)
        /\ match truthy fc with
           | Some s => exists c, Color s = Ok c /\ font_color f = Some c
           | None => font_color f = None
           end)
  /\ (ng = None <-> truthy bg = None)
  /\ (forall g, ng = Some g ->
        exists b c, truthy bg = Some b /\ Color b = Ok c
                    /\ g = PatternFill (Some "solid") c c).
Proof.
  intros Hload Hsheet Hrange Hf Hg Hw out.
  destruct (format_excel_cells_spec file_path sheet_name cell_range fc bg bold size
              fs wb ws rws nf ng Hload Hsheet Hrange Hf Hg Hw)
    as (ws' & _ & Ht & Hout & Hcells).
  subst out. rewrite Hout. simpl. split; [done|]. split.
  - intros rc. rewrite doc_cell_saved, (get_sheet_put _ _ _ _ Hsheet Ht).
    eexists. split; [reflexivity|].
    destruct (cell_at_stored ws' rc) as (-> & -> & _).
    rewrite Hcells. by case_bool_decide.
  - split; [rewrite <- requested_font_none, Hf; split; congruence|].
    split; [intros f ->; by apply requested_font_some|].
    split; [rewrite <- requested_fill_none, Hg; split; congruence|].
    intros g ->. by apply requested_fill_some.
Qed.

(** A document whose cell A1 is bold, 14 points, in Arial. *)
Definition arial_bold_14 : font :=
  Font (Some "Arial") (Some 14) (Some true) (Some false) None.
Definition styled_sheet : worksheet :=
  Worksheet "S" {[ (1%nat, 1%nat) := Cell (CStr "x") arial_bold_14 DEFAULT_FILL ]}.
Definition styled_fs : filesystem :=
  FS {[ "book.xlsx" := FWorkbook [styled_sheet] ]} ∅.
Definition red : font := Font None None None None (Some (ColorRGB "00FF0000")).
Definition A1_B2 : list (list (nat * nat)) :=
  [[(1, 1); (1, 2)]; [(2, 1); (2, 2)]]%nat.

Lemma format_replaces_font_and_fill_witness :
  load_workbook styled_fs "book.xlsx" = Ok [styled_sheet]
  /\ get_sheet [styled_sheet] "S" = Ok styled_sheet
  /\ getitem styled_sheet "A1:B2" = Ok (ITuples A1_B2)
  /\ requested_font (Some "FF0000") false None = Ok (Some red)
  /\ requested_fill None = Ok None
  /\ ("book.xlsx" ∉ unwritable styled_fs)
  /\ fst (format_excel_cells "book.xlsx" "S" "A1:B2" (Some "FF0000") None false None
            styled_fs)
     = formatted "book.xlsx" "S" "A1:B2".
Proof.
  repeat (split; [vm_compute; reflexivity || set_solver|]).
  refine (proj1 (format_replaces_font_and_fill "book.xlsx" "S" "A1:B2"
                   (Some "FF0000") None false None styled_fs [styled_sheet]
                   styled_sheet _ (Some red) None _ _ _ _ _ _));
    vm_compute; reflexivity || set_solver.
Defined.

(** C1 as stated fails: when only a font colour is supplied, the bold flag
    and the font size of a cell of the range do not keep the values they
    had; both are cleared. *)
Lemma colour_only_clears_bold_and_size :
  option_map (fun c => (font_bold (cfont c), font_size (cfont c)))
    (doc_cell styled_fs "book.xlsx" "S" (1, 1)%nat)
  = Some (Some true, Some 14)
  /\ option_map (fun c => (font_bold (cfont c), font_size (cfont c)))
       (doc_cell
          (snd (format_excel_cells "book.xlsx" "S" "A1:A1" (Some "FF0000") None false
                  None styled_fs))
          "book.xlsx" "S" (1, 1)%nat)
     = Some (None, None).
Proof. split; vm_compute; reflexivity. Qed.

(** *** No field supplied *)

Lemma format_rows_nothing fc bg size rws : forall ws,
  truthy fc = None -> truthy bg = None -> truthy_int size = None ->
  format_rows fc bg false size rws ws = Ok ws.
Proof.
  intros ws Hc Hb Hs.
  assert (forall rc w, format_cell fc bg false size w rc = Ok w) as Hcell.
  { intros rc w. unfold format_cell, new_font. by rewrite Hc, Hb, Hs. }
  assert (forall row w, format_row fc bg false size row w = Ok w) as Hrow.
  { induction row as [|rc row IH]; intros w; simpl; [done|].
    rewrite Hcell. simpl. apply IH. }
  revert ws. induction rws as [|row rws IH]; intros ws; simpl; [done|].
  rewrite Hrow. simpl. apply IH.
Qed.

(** C8, as the code has it: when no font colour, no background colour, no
    bold flag and no font size is supplied, the call succeeds on a document
    that loads, a sheet that exists, a range of rows and a writable path;
    the document is written back as it was loaded, so every cell of every
    sheet keeps its font and its fill; and the result carries
    formatting_applied = true, as after any other successful call. *)
Theorem format_without_fields (file_path sheet_name cell_range : string)
    (fc bg : option string) (size : option Z) (fs : filesystem)
    (wb : workbook) (ws : worksheet) (rws : list (list (nat * nat))) :
  load_workbook fs file_path = Ok wb ->
  get_sheet wb sheet_name = Ok ws ->
  getitem ws cell_range = Ok (ITuples rws) ->
  truthy fc = None -> truthy bg = None -> truthy_int size = None ->
  file_path ∉ unwritable fs ->
  let out := format_excel_cells file_path sheet_name cell_range fc bg false size fs in
  fst out = formatted file_path sheet_name cell_range
  /\ get "formatting_applied" (fst out) = Some (PBool true)
  /\ snd out = FS (<[file_path := FWorkbook (stored wb)]> (files fs)) (unwritable fs)
  /\ forall name rc,
       option_map cfont (doc_cell (snd out) file_path name rc)
       = option_map cfont (doc_cell fs file_path name rc)
       /\ option_map cfill (doc_cell (snd out) file_path name rc)
          = option_map cfill (doc_cell fs file_path name rc).
Proof.
  intros Hload Hsheet Hrange Hc Hb Hs Hw out.
  assert (requested_font fc false size = Ok None) as Hf
    by (by apply requested_font_none).
  assert (requested_fill bg = Ok None) as Hg by (by apply requested_fill_none).
  destruct (format_excel_cells_spec file_path sheet_name cell_range fc bg false size
              fs wb ws rws None None Hload Hsheet Hrange Hf Hg Hw)
    as (ws' & Hrows & Ht & Hout & _).
  rewrite (format_rows_nothing fc bg size rws ws Hc Hb Hs) in Hrows. simplify_eq.
  rewrite (put_sheet_same _ _ _ Hsheet) in Hout.
  subst out. rewrite Hout. simpl. split; [done|]. split; [done|]. split; [done|].
  intros name rc. rewrite doc_cell_saved. unfold doc_cell.
  rewrite (load_workbook_file _ _ _ Hload).
  destruct (get_sheet wb name) as [w|]; simpl; [|done].
  by destruct (cell_at_stored w rc) as (-> & -> & _).
Qed.

Lemma format_without_fields_witness :
  load_workbook styled_fs "book.xlsx" = Ok [styled_sheet]
  /\ get_sheet [styled_sheet] "S" = Ok styled_sheet
  /\ getitem styled_sheet "A1:B2" = Ok (ITuples A1_B2)
  /\ ("book.xlsx" ∉ unwritable styled_fs)
  /\ snd (format_excel_cells "book.xlsx" "S" "A1:B2" None None false None styled_fs)
     = FS (<["book.xlsx" := FWorkbook (stored [styled_sheet])]> (files styled_fs))
          (unwritable styled_fs).
Proof.
  repeat (split; [vm_compute; reflexivity || set_solver|]).
  refine (proj1 (proj2 (proj2 (format_without_fields "book.xlsx" "S" "A1:B2"
                   None None None styled_fs [styled_sheet]
                   styled_sheet _ _ _ _ _ _ _ _))));
    vm_compute; reflexivity || set_solver.
Defined.

(** A result reports that nothing was changed when its formatting_applied
    field is false. *)
Definition reports_no_change (r : result) : bool :=
  match get "formatting_applied" r with
  | Some (PScalar (SBool false)) => true
  | _ => false
  end.

(** C8 as stated fails: a call without any field succeeds, and its result
    says formatting_applied = true; nothing in it reports that no change
    was made. *)
Lemma no_field_still_reports_formatting :
  fst (format_excel_cells "book.xlsx" "S" "A1:B2" None None false None styled_fs)
  = formatted "book.xlsx" "S" "A1:B2"
  /\ reports_no_change
       (fst (format_excel_cells "book.xlsx" "S" "A1:B2" None None false None styled_fs))
     = false.
Proof. split; vm_compute; reflexivity. Qed.

End Formatting.

(** ** Writing a record set *)

Module Writing.
Import Py Xl Pd Tools Facts Formatting.

















(** *** The frame of a record set *)








Lemma len_DataFrame_of data : len (DataFrame_of data) = List.length data.
Proof. unfold len, DataFrame_of, raw_rows. simpl. by rewrite !length_map. Qed.


(** *** The tool *)








(** A record set of two records, written to a new file. *)
Definition two_people : list record :=
  [[("name", SText "A"); ("age", SInt 30)];
   [("name", SText "B"); ("age", SNull)]].




End Writing.

(** ** Reading a sheet back *)

Module Reading.
Import Py Xl Pd Tools Facts Formatting Writing.









(** The lines of a sheet, by index. *)
Lemma get_sheet_data_lookup ws i :
  (i < last_row ws)%nat ->
  get_sheet_data ws !! i
  = Some (map (fun c => raw ws (S i) c) (seq 1 (last_col ws))).
Proof.
  intros Hi. unfold get_sheet_data.
  rewrite list_lookup_fmap, lookup_seq_lt by done. done.
Qed.



(** *** A header of distinct names is kept as it is *)










(** *** The frame of a sheet that holds a table *)




Lemma sheet_readable_spec ws :
  (forall rc c, cells ws !! rc = Some c -> finite_content c = true) ->
  sheet_readable ws = true.
Proof.
  intros H. unfold sheet_readable. apply forallb_forall.
  intros [rc c] Hin%list_elem_of_In%elem_of_map_to_list. by apply (H rc).
Qed.




(** *** Writing, then reading *)










End Reading.

(** ** Updating a cell, then reading *)

Module RoundTrip.
Import Py Xl Pd Tools Facts Formatting Writing Reading.

(** *** Numbers *)



(** *** Values that survive the round trip *)










Lemma as_float_agrees b : py_eq (as_float (KBool b)) (SBool b) = true.
Proof. by destruct b; vm_compute. Qed.


(** *** One value of a frame *)







(** *** One entry of a record *)

Lemma combine_at {A B} (l : list A) (k : list B) j a b :
  l !! j = Some a -> k !! j = Some b -> combine l k !! j = Some (a, b).
Proof.
  revert k j. induction l as [|x l IH]; intros [|y k] [|j]; simpl; try done.
  - by intros [= ->] [= ->].
  - apply IH.
Qed.


(** *** Documents that load stay loadable *)

Lemma load_workbook_readable fs path wb :
  load_workbook fs path = Ok wb -> readable wb = true.
Proof.
  unfold load_workbook. repeat case_match; intros; simplify_eq; done.
Qed.


Lemma sheet_readable_cell ws rc c :
  sheet_readable ws = true -> cells ws !! rc = Some c -> finite_content c = true.
Proof.
  unfold sheet_readable. rewrite forallb_forall. intros H Hc.
  apply (H (rc, c)). by apply list_elem_of_In, elem_of_map_to_list.
Qed.

Lemma stored_cell_finite c c' :
  stored_cell c = Some c' -> finite_content c = true -> finite_content c' = true.
Proof.
  unfold stored_cell, finite_content. destruct c as [x f g]. simpl.
  destruct x as [|n|b|s|src cached|e]; try case_bool_decide;
    intros; simplify_eq; simpl; try done.
  by destruct s.
Qed.



(** *** A cell of the sheet as a value of the frame *)



(** *** Updating, then reading *)


(** A document with one sheet: a header and one person. *)
Definition unstyled (x : content) : cell := Cell x DEFAULT_FONT DEFAULT_FILL.
Definition people_sheet : worksheet :=
  Worksheet "People"
    {[ (1%nat, 1%nat) := unstyled (CStr "name");
       (1%nat, 2%nat) := unstyled (CStr "age");
       (2%nat, 1%nat) := unstyled (CStr "Alice");
       (2%nat, 2%nat) := unstyled (CNum (FFin (Dec 30 0))) ]}.
Definition people_fs : filesystem :=
  FS {[ "book.xlsx" := FWorkbook [people_sheet] ]} ∅.



End RoundTrip.

(** ** Searching a column *)

Module Searching.
Import Py Xl Pd Tools Facts RoundTrip.

Section Search.

Variable re_compile : string -> exc (string -> bool).

(** A row that the mask selects is among the selected rows. *)
Lemma select_rows_elem df mask i row :
  rows df !! i = Some row -> mask !! i = Some true ->
  (i, row) ∈ select_rows df mask.
Proof.
  intros Hr Hm. unfold select_rows. apply list_elem_of_fmap.
  exists (i, (row, true)). split; [done|].
  apply list_elem_of_In, filter_In. split; [|done].
  apply list_elem_of_In, elem_of_lookup_imap. exists i, (row, true).
  split; [done|]. by apply combine_at.
Qed.

Lemma column_row df name col i v :
  getcol df name = Ok col -> col !! i = Some v ->
  exists row, rows df !! i = Some row.
Proof.
  unfold getcol. destruct (column_index _ _) as [j|]; [|done]. intros [= <-].
  unfold column_of. rewrite list_lookup_fmap.
  destruct (rows df !! i); [eauto|done].
Qed.

(** The text searched in place of a missing value is its [str]. *)
Lemma missing_is_searched search col i :
  col !! i = Some SNaN -> search "nan" = true ->
  str_contains search false (astype_str col) !! i = Some true.
Proof.
  intros Hc Hs. unfold str_contains, astype_str.
  rewrite !list_lookup_fmap, Hc. simpl. by rewrite Hs.
Qed.

(** C5 does not hold of the code: a row whose value in the searched column
    is missing matches every pattern that is found in the text nan, since
    the column is turned into text before it is searched. *)
Theorem null_row_matches (file_path sheet_name search_column search_value : string)
    (fs : filesystem) (df : DataFrame) (col : list scalar) (i : nat)
    (search : string -> bool) :
  exists_ fs file_path = true ->
  read_excel fs file_path (Some sheet_name) = Ok df ->
  getcol df search_column = Ok col ->
  col !! i = Some SNaN ->
  re_compile search_value = Ok search ->
  search "nan" = true ->
  let out := fst (find_excel_row_by_content re_compile file_path sheet_name
                    search_column search_value fs) in
  get "found" out = Some (PBool true)
  /\ exists results data,
       get "matches" out = Some (PList results)
       /\ PDict [(key "excel_row_number", PNat (i + 2));
                 (key "pandas_index", PNat i);
                 (key "data", data)] ∈ results.
Proof.
  intros Hex Hdf Hcol Hi Hre Hs out.
  destruct (column_row _ _ _ _ _ Hcol Hi) as (row & Hrow).
  pose proof (select_rows_elem df _ i row Hrow (missing_is_searched search col i Hi Hs))
    as Hsel.
  subst out. unfold find_excel_row_by_content.
  rewrite Hex, Hdf. cbn [negb ebind]. rewrite Hcol. cbn [ebind].
  rewrite Hre. cbn [ebind].
  destruct (select_rows df (str_contains search false (astype_str col)))
    as [|m ms] eqn:Hms; [by apply elem_of_nil in Hsel|].
  cbn [try_except fst]. split; [done|].
  eexists _, _. split; [done|].
  apply list_elem_of_fmap. exists (i, row). split; [|done]. done.
Qed.

End Search.

(** A pattern without special characters compiles to a search for its
    text, whatever the case. *)
Definition literal (pat : string) : exc (string -> bool) :=
  Ok (fun s => contains (lower s) (lower pat)).

(** A sheet whose second person has no name. *)
Definition nameless_sheet : worksheet :=
  Worksheet "People"
    {[ (1%nat, 1%nat) := unstyled (CStr "name");
       (1%nat, 2%nat) := unstyled (CStr "age");
       (2%nat, 1%nat) := unstyled (CStr "Alice");
       (2%nat, 2%nat) := unstyled (CNum (FFin (Dec 30 0)));
       (3%nat, 2%nat) := unstyled (CNum (FFin (Dec 25 0))) ]}.
Definition nameless_fs : filesystem :=
  FS {[ "book.xlsx" := FWorkbook [nameless_sheet] ]} ∅.

Lemma null_row_matches_witness :
  read_excel nameless_fs "book.xlsx" (Some "People")
  = Ok (Frame [SText "name"; SText "age"]
          [[SText "Alice"; SInt 30]; [SNaN; SInt 25]])
  /\ contains (lower "Alice") (lower "nan") = false
  /\ get "found"
       (fst (find_excel_row_by_content literal "book.xlsx" "People" "name" "nan"
               nameless_fs))
     = Some (PBool true).
Proof.
  split; [vm_compute; reflexivity|]. split; [vm_compute; reflexivity|].
  refine (proj1 (null_row_matches literal "book.xlsx" "People" "name" "nan"
                   nameless_fs
                   (Frame [SText "name"; SText "age"]
                      [[SText "Alice"; SInt 30]; [SNaN; SInt 25]])
                   [SText "Alice"; SNaN] 1
                   (fun s => contains (lower s) (lower "nan")) _ _ _ _ _ _)).
  - vm_compute; reflexivity.
  - vm_compute; reflexivity.
  - vm_compute; reflexivity.
  - reflexivity.
  - reflexivity.
  - vm_compute; reflexivity.
Defined.

(** The whole answer to that search: the row without a name is reported as
    the one match. *)
Example search_finds_null_row :
  fst (find_excel_row_by_content literal "book.xlsx" "People" "name" "nan"
         nameless_fs)
  = [("found", PBool true);
     ("search_column", PStr "name");
     ("search_value", PStr "nan");
     ("matches",
      PList [PDict [(key "excel_row_number", PInt 3);
                    (key "pandas_index", PInt 1);
                    (key "data", PDict [(key "name", PScalar SNaN);
                                        (key "age", PInt 25)])]]);
     ("total_matches", PInt 1)].
Proof. vm_compute. reflexivity. Qed.

End Searching.

(** * Further properties of the tools *)

(** ** Documents after an edit *)

Module Edits.
Import Py Xl Pd Tools Facts Formatting Writing Reading RoundTrip.

(** A cell is compared with what it held as a saved document holds it
    ([stored_value]): an empty text is an empty cell, and a formula has no
    cached result. *)

(** *** Sheets of a workbook *)

Lemma get_sheet_put_ne wb name ws' n :
  title ws' = name -> n <> name ->
  get_sheet (put_sheet wb name ws') n = get_sheet wb n.
Proof.
  intros Ht Hn. induction wb as [|w wb IH]; simpl; [done|].
  destruct (str_eqb (title w) name) eqn:E; simpl.
  - apply str_eqb_true in E.
    assert (str_eqb (title ws') n = false) as ->.
    { destruct (str_eqb (title ws') n) eqn:E'; [|done].
      apply str_eqb_true in E'. congruence. }
    assert (str_eqb (title w) n = false) as ->; [|done].
    destruct (str_eqb (title w) n) eqn:E'; [|done].
    apply str_eqb_true in E'. congruence.
  - by rewrite IH.
Qed.

Lemma get_sheet_remove_ne wb name n :
  n <> name -> get_sheet (remove_sheet wb name) n = get_sheet wb n.
Proof.
  intros Hn. induction wb as [|w wb IH]; simpl; [done|].
  destruct (str_eqb (title w) name) eqn:E; simpl.
  - apply str_eqb_true in E.
    assert (str_eqb (title w) n = false) as ->; [|done].
    destruct (str_eqb (title w) n) eqn:E'; [|done].
    apply str_eqb_true in E'. congruence.
  - by rewrite IH.
Qed.


Lemma sheetnames_stored wb : sheetnames (stored wb) = sheetnames wb.
Proof. unfold sheetnames, stored. rewrite map_map. done. Qed.


(** *** Documents that load *)

Lemma readable_forall wb :
  readable wb = true <-> forall ws, ws ∈ wb -> sheet_readable ws = true.
Proof.
  unfold readable. rewrite forallb_forall. split.
  - intros H ws Hin. apply (H ws). by apply list_elem_of_In.
  - intros H ws Hin. apply (H ws). by apply list_elem_of_In.
Qed.

Lemma stored_sheet_readable ws :
  sheet_readable ws = true -> sheet_readable (stored_sheet ws) = true.
Proof.
  intros Hr. apply sheet_readable_spec. intros rc c'. simpl. rewrite lookup_omap.
  destruct (cells ws !! rc) as [x|] eqn:Hx; simpl; [|done]. intros Hs.
  eapply stored_cell_finite; [done|]. by eapply sheet_readable_cell.
Qed.

Lemma readable_stored wb : readable wb = true -> readable (stored wb) = true.
Proof.
  rewrite !readable_forall. intros H ws (w & -> & Hw)%list_elem_of_fmap.
  by apply stored_sheet_readable, H.
Qed.

Lemma elem_of_remove_sheet wb name ws :
  ws ∈ remove_sheet wb name -> ws ∈ wb.
Proof.
  induction wb as [|w wb IH]; simpl; [done|].
  destruct (str_eqb (title w) name).
  - by right.
  - intros [->|H]%elem_of_cons; [by left | right; by apply IH].
Qed.


Lemma load_workbook_ext fs path wb :
  load_workbook fs path = Ok wb ->
  str_in (lower (splitext path)) SUPPORTED_FORMATS = true.
Proof.
  unfold load_workbook.
  destruct (str_in (lower (splitext path)) SUPPORTED_FORMATS); [done|].
  simpl. done.
Qed.

(** A document that was saved loads again as it was stored. *)
Lemma load_saved (fs : filesystem) path wb :
  str_in (lower (splitext path)) SUPPORTED_FORMATS = true ->
  readable wb = true ->
  load_workbook (FS (<[path := FWorkbook (stored wb)]> (files fs)) (unwritable fs)) path
  = Ok (stored wb).
Proof.
  intros Hext Hr. unfold load_workbook. rewrite Hext. cbn [negb files].
  rewrite lookup_insert_eq. by rewrite (readable_stored _ Hr).
Qed.

Lemma save_nonempty wb path fs :
  wb <> [] -> path ∉ unwritable fs ->
  save wb path fs
  = (Ok tt, FS (<[path := FWorkbook (stored wb)]> (files fs)) (unwritable fs)).
Proof.
  intros Hne Hw. destruct wb as [|w wb']; [done|]. by eapply save_writable.
Qed.



Lemma remove_sheet_nonempty wb name :
  str_in name (sheetnames wb) = true ->
  List.length (sheetnames wb) <> 1%nat -> remove_sheet wb name <> [].
Proof.
  intros Hin Hlen Hnil. pose proof (remove_sheet_length _ _ Hin) as H.
  rewrite Hnil in H. unfold sheetnames in Hlen. rewrite length_map in Hlen.
  simpl in H. lia.
Qed.

(** *** A failed edit *)








(** Errors that are no validation errors: a range where a cell is expected,
    a colour that is no colour, a title with a forbidden character. *)
Example caught_errors_occur :
  update_excel_cell "book.xlsx" "People" 2 "A1:B" (SInt 1) people_fs
  = (unexpected "'tuple' object has no attribute 'value'", people_fs)
  /\ snd (format_excel_cells "book.xlsx" "People" "A1:B2" (Some "red") None false None
            people_fs) = people_fs
  /\ error_object
       (fst (format_excel_cells "book.xlsx" "People" "A1:B2" (Some "red") None false None
               people_fs))
  /\ add_excel_sheet "book.xlsx" "a/b" None people_fs
     = (unexpected "Invalid character / found in sheet title", people_fs).
Proof.
  split; [vm_compute; reflexivity|]. split; [vm_compute; reflexivity|].
  split; [eexists; vm_compute; reflexivity | vm_compute; reflexivity].
Qed.

(** *** One cell updated *)

Lemma sheetnames_put_sheet wb name ws' :
  title ws' = name -> sheetnames (put_sheet wb name ws') = sheetnames wb.
Proof.
  intros Ht. induction wb as [|w wb IH]; simpl; [done|].
  destruct (str_eqb (title w) name) eqn:E; simpl.
  - apply str_eqb_true in E. by rewrite Ht, E.
  - by rewrite IH.
Qed.


(** The cell of a saved document, sheet by sheet. *)
Lemma doc_cell_put (fs : filesystem) path wb name ws ws' n w rc :
  get_sheet wb name = Ok ws -> title ws' = name -> get_sheet wb n = Ok w ->
  doc_cell (FS (<[path := FWorkbook (stored (put_sheet wb name ws'))]> (files fs))
              (unwritable fs)) path n rc
  = Some (cell_at (stored_sheet (if decide (n = name) then ws' else w)) rc).
Proof.
  intros Hws Ht Hw. rewrite doc_cell_saved. case_decide as Hn.
  - subst n. by rewrite (get_sheet_put wb name ws ws' Hws Ht).
  - by rewrite (get_sheet_put_ne wb name ws' n Ht Hn), Hw.
Qed.


(** *** A range formatted *)

(** format_excel_cells, when it succeeds, changes no content: every cell of
    every sheet holds what it held; the document keeps its sheets, the
    cells of the other sheets keep their font and their fill, and files at
    other paths are untouched. *)
Theorem format_keeps_contents (file_path sheet_name cell_range : string)
    (fc bg : option string) (bold : bool) (size : option Z) (fs : filesystem)
    (wb : workbook) (ws : worksheet) (rws : list (list (nat * nat)))
    (nf : option font) (ng : option fill) :
  load_workbook fs file_path = Ok wb ->
  get_sheet wb sheet_name = Ok ws ->
  getitem ws cell_range = Ok (ITuples rws) ->
  requested_font fc bold size = Ok nf ->
  requested_fill bg = Ok ng ->
  file_path ∉ unwritable fs ->
  let out := format_excel_cells file_path sheet_name cell_range fc bg bold size fs in
  (exists wb', files (snd out) !! file_path = Some (FWorkbook wb')
               /\ sheetnames wb' = sheetnames wb)
  /\ (forall p, p <> file_path -> files (snd out) !! p = files fs !! p)
  /\ (forall n w rc, get_sheet wb n = Ok w ->
        exists c', doc_cell (snd out) file_path n rc = Some c'
          /\ value c' = stored_value (value (cell_at w rc))
          /\ (n <> sheet_name ->
              cfont c' = cfont (cell_at w rc) /\ cfill c' = cfill (cell_at w rc))).
Proof.
  intros Hload Hws Hrange Hf Hg Hw out.
  destruct (format_excel_cells_spec file_path sheet_name cell_range fc bg bold size
              fs wb ws rws nf ng Hload Hws Hrange Hf Hg Hw)
    as (ws' & _ & Ht & Hout & Hcells).
  subst out. rewrite Hout. cbn [fst snd files]. split; [|split].
  - eexists. split; [apply lookup_insert_eq|].
    by rewrite sheetnames_stored, sheetnames_put_sheet.
  - intros p Hp. by rewrite lookup_insert_ne.
  - intros n w rc Hn.
    rewrite (doc_cell_put fs file_path wb sheet_name ws ws' n w rc Hws Ht Hn).
    eexists. split; [done|].
    destruct (cell_at_stored (if decide (n = sheet_name) then ws' else w) rc)
      as (-> & -> & ->).
    case_decide as Hname; [|done].
    subst n. assert (w = ws) as -> by congruence. split; [|done].
    rewrite Hcells. by case_bool_decide.
Qed.

(** *** A sheet deleted *)

(** The sheet that [remove_sheet] takes out is the first one of that name. *)
Lemma remove_sheet_split wb name :
  str_in name (sheetnames wb) = true ->
  exists wb1 w wb2,
    wb = (wb1 ++ w :: wb2)%list /\ title w = name
    /\ (name ∉ sheetnames wb1)
    /\ remove_sheet wb name = (wb1 ++ wb2)%list.
Proof.
  induction wb as [|w wb IH]; simpl; [done|].
  destruct (str_eqb (title w) name) eqn:E.
  - intros _. exists [], w, wb. apply str_eqb_true in E.
    split; [done|]. split; [done|]. split; [apply not_elem_of_nil | done].
  - assert (str_eqb name (title w) = false) as ->.
    { destruct (str_eqb name (title w)) eqn:E'; [|done].
      apply str_eqb_true in E'. subst. by rewrite str_eqb_refl in E. }
    simpl. intros (wb1 & w' & wb2 & -> & Ht & Hnot & Hrem)%IH.
    exists (w :: wb1), w', wb2. split; [done|]. split; [done|].
    split; [|by rewrite Hrem].
    simpl. intros [Heq|Hin']%elem_of_cons; [|done].
    rewrite Heq, str_eqb_refl in E. done.
Qed.

(** The result of a sheet listing. *)
Definition listed (file_path : string) (names : list string) : result :=
  [("file_path", PStr file_path);
   ("sheets", PList (map PStr names));
   ("total_sheets", PNat (List.length names))].

Lemma list_excel_sheets_loaded file_path fs wb :
  load_workbook fs file_path = Ok wb ->
  list_excel_sheets file_path fs = (listed file_path (sheetnames wb), fs).
Proof.
  intros Hload. unfold list_excel_sheets.
  by rewrite (load_workbook_exists _ _ _ Hload), Hload.
Qed.

(** delete_excel_sheet on a document that loads and has another sheet
    besides the named one, at a writable path: the call succeeds; the
    first sheet of that name is taken out and the other sheets stay in
    their order, which is what the result reports and what a listing of
    the document returns afterwards; the cells of the other sheets keep
    their content, their font and their fill. *)
Theorem delete_removes_named_sheet (file_path sheet_name : string)
    (fs : filesystem) (wb : workbook) :
  load_workbook fs file_path = Ok wb ->
  str_in sheet_name (sheetnames wb) = true ->
  List.length (sheetnames wb) <> 1%nat ->
  file_path ∉ unwritable fs ->
  let out := delete_excel_sheet file_path sheet_name fs in
  exists before after,
    sheetnames wb = (before ++ sheet_name :: after)%list
    /\ (sheet_name ∉ before)
    /\ fst out = [("status", PStr "success");
                  ("file_path", PStr file_path);
                  ("deleted_sheet", PStr sheet_name);
                  ("remaining_sheets", PList (map PStr (before ++ after)))]
    /\ fst (list_excel_sheets file_path (snd out))
       = listed file_path (before ++ after)
    /\ (forall n w rc, n <> sheet_name -> get_sheet wb n = Ok w ->
          exists c', doc_cell (snd out) file_path n rc = Some c'
            /\ cfont c' = cfont (cell_at w rc)
            /\ cfill c' = cfill (cell_at w rc)
            /\ value c' = stored_value (value (cell_at w rc))).
Proof.
  intros Hload Hin Hlen Hw out.
  destruct (remove_sheet_split wb sheet_name Hin)
    as (wb1 & w0 & wb2 & Hwb & Ht & Hnot & Hrem).
  exists (sheetnames wb1), (sheetnames wb2).
  assert (sheetnames (remove_sheet wb sheet_name)
          = (sheetnames wb1 ++ sheetnames wb2)%list) as Hnames.
  { rewrite Hrem. unfold sheetnames. by rewrite map_app. }
  assert (out = ([("status", PStr "success");
                  ("file_path", PStr file_path);
                  ("deleted_sheet", PStr sheet_name);
                  ("remaining_sheets",
                   PList (map PStr (sheetnames wb1 ++ sheetnames wb2)))],
                 FS (<[file_path := FWorkbook (stored (remove_sheet wb sheet_name))]>
                       (files fs)) (unwritable fs))) as ->.
  { subst out. unfold delete_excel_sheet.
    rewrite (load_workbook_exists _ _ _ Hload), Hload, Hin. cbn [negb].
    apply Nat.eqb_neq in Hlen. rewrite Hlen.
    rewrite save_nonempty; [by rewrite Hnames| |done].
    apply remove_sheet_nonempty; [done | by apply Nat.eqb_neq]. }
  cbn [fst snd].
  split; [subst wb; unfold sheetnames; rewrite map_app; simpl; by rewrite Ht|].
  split; [done|]. split; [done|]. split.
  - erewrite list_excel_sheets_loaded.
    + cbn [fst]. by rewrite sheetnames_stored, Hnames.
    + apply load_saved; [by eapply load_workbook_ext|].
      apply readable_forall. intros ws Hws%elem_of_remove_sheet.
      eapply readable_forall; [|done]. by eapply load_workbook_readable.
  - intros n w rc Hn Hget. rewrite doc_cell_saved.
    rewrite (get_sheet_remove_ne wb sheet_name n Hn), Hget.
    eexists. split; [done|].
    by destruct (cell_at_stored w rc) as (-> & -> & ->).
Qed.

(** *** A sheet added *)

Definition added (file_path sheet_name : string) (n : nat) : result :=
  [("status", PStr "success");
   ("file_path", PStr file_path);
   ("sheet_name", PStr sheet_name);
   ("rows_added", PNat n)].

Lemma create_sheet_appends wb name wb' t :
  create_sheet wb name = Ok (wb', t) -> wb' = (wb ++ [Worksheet t ∅])%list.
Proof.
  unfold create_sheet. destruct (set_title _ _ _) as [t'|e]; cbn [ebind]; [|done].
  by intros [= <- <-].
Qed.



Lemma readable_app_empty wb t :
  readable wb = true -> readable (wb ++ [Worksheet t ∅])%list = true.
Proof.
  rewrite !readable_forall. intros H ws [Hin|Hnew%list_elem_of_singleton]%elem_of_app.
  - by apply H.
  - subst ws. apply sheet_readable_spec. intros rc c. simpl.
    by rewrite lookup_empty.
Qed.

Lemma add_excel_sheet_spec file_path sheet_name data fs wb wb' t :
  (if negb (exists_ fs file_path) then Ok new_workbook
   else load_workbook fs file_path) = Ok wb ->
  str_in sheet_name (sheetnames wb) = false ->
  create_sheet wb sheet_name = Ok (wb', t) ->
  truthy_list data = None ->
  file_path ∉ unwritable fs ->
  add_excel_sheet file_path sheet_name data fs
  = (added file_path sheet_name 0,
     FS (<[file_path := FWorkbook (stored (wb ++ [Worksheet t ∅])%list)]> (files fs))
        (unwritable fs)).
Proof.
  intros Hopen Hin Hc Hd Hw. pose proof (create_sheet_appends _ _ _ _ Hc) as ->.
  unfold add_excel_sheet. rewrite Hopen, Hin, Hc, Hd. cbn [ebind fst].
  rewrite save_nonempty; [done | by destruct wb | done].
Qed.



(** add_excel_sheet without data at a path where no file exists, with a
    name other than Sheet, the path being writable: the call succeeds and
    creates a document of two sheets without cells, the default sheet named
    Sheet and then the new one, whatever the extension of the path; a
    listing of that document returns the two names when the extension is
    one openpyxl loads. *)
Theorem add_creates_document (file_path sheet_name : string)
    (data : option (list record)) (fs : filesystem) (wb' : workbook) (t : string) :
  exists_ fs file_path = false ->
  str_eqb sheet_name "Sheet" = false ->
  create_sheet new_workbook sheet_name = Ok (wb', t) ->
  truthy_list data = None ->
  file_path ∉ unwritable fs ->
  let out := add_excel_sheet file_path sheet_name data fs in
  fst out = added file_path sheet_name 0
  /\ files (snd out) !! file_path
     = Some (FWorkbook [Worksheet "Sheet" ∅; Worksheet t ∅])
  /\ (forall p, p <> file_path -> files (snd out) !! p = files fs !! p)
  /\ (str_in (lower (splitext file_path)) SUPPORTED_FORMATS = true ->
      fst (list_excel_sheets file_path (snd out)) = listed file_path ["Sheet"; t]).
Proof.
  intros Hex Hname Hc Hd Hw out.
  assert ((if negb (exists_ fs file_path) then Ok new_workbook
           else load_workbook fs file_path) = Ok new_workbook) as Hopen.
  { by rewrite Hex. }
  assert (str_in sheet_name (sheetnames new_workbook) = false) as Hin.
  { simpl. by rewrite Hname. }
  subst out.
  rewrite (add_excel_sheet_spec _ _ _ _ _ _ _ Hopen Hin Hc Hd Hw). cbn [fst snd files].
  assert (stored (new_workbook ++ [Worksheet t ∅])%list
          = [Worksheet "Sheet" ∅; Worksheet t ∅]) as Hst.
  { unfold stored, stored_sheet. simpl. by rewrite omap_empty. }
  split; [done|]. split; [by rewrite lookup_insert_eq, Hst|].
  split; [intros p Hp; by rewrite lookup_insert_ne|].
  intros Hext.
  rewrite (list_excel_sheets_loaded file_path _
             (stored (new_workbook ++ [Worksheet t ∅])%list)).
  - cbn [fst]. by rewrite Hst.
  - apply load_saved; [done|]. by apply readable_app_empty.
Qed.

(** *** A record set written *)

(** Once the writer has accepted the extension and opened the path,
    write_excel_file depends in no way on what the path held: its result
    and the file it leaves are the same for every file system, be the
    result a success or an error. *)
Theorem write_discards_previous (file_path : string) (data : list record)
    (sheet_name : string) :
  check_extension (splitext file_path) = true ->
  exists r f, forall fs,
    file_path ∉ unwritable fs ->
    write_excel_file file_path data sheet_name fs
    = (r, FS (<[file_path := f]> (files fs)) (unwritable fs)).
Proof.
  intros Hext. unfold write_excel_file, ExcelWriter_to_excel. rewrite Hext.
  cbn [negb]. destruct (to_excel (DataFrame_of data) sheet_name) as [book err].
  destruct book as [|w book].
  - eexists _, _. intros fs Hw. rewrite bool_decide_eq_false_2 by done.
    cbn. by rewrite insert_insert_eq.
  - destruct err as [e|].
    + eexists _, _. intros fs Hw. rewrite bool_decide_eq_false_2 by done.
      cbn. by rewrite insert_insert_eq.
    + eexists _, _. intros fs Hw. rewrite bool_decide_eq_false_2 by done.
      cbn. by rewrite insert_insert_eq.
Qed.

(** A sheet name with a character that no title may hold makes
    write_excel_file return an error object, and yet the path, whatever it
    held, then holds a document of one sheet named Sheet without any cell:
    the writer has already opened the file, and writes its book on
    leaving. *)
Theorem failed_write_empties_document (file_path : string) (data : list record)
    (sheet_name : string) (fs : filesystem) (e : string) :
  check_extension (splitext file_path) = true ->
  file_path ∉ unwritable fs ->
  (List.length data <= MAX_ROWS)%nat ->
  (List.length (union_keys data) <= MAX_COLS)%nat ->
  set_title ["Sheet"] "Sheet" sheet_name = Raise e ->
  write_excel_file file_path data sheet_name fs
  = (unexpected e,
     FS (<[file_path := FWorkbook [Worksheet "Sheet" ∅]]> (files fs)) (unwritable fs)).
Proof.
  intros Hext Hw Hrows Hcols Ht.
  unfold write_excel_file, ExcelWriter_to_excel. rewrite Hext. cbn [negb].
  rewrite bool_decide_eq_false_2 by done.
  unfold to_excel. rewrite len_DataFrame_of.
  assert (List.length (columns (DataFrame_of data)) = List.length (union_keys data))
    as -> by (simpl; by rewrite length_map).
  assert (Nat.ltb MAX_ROWS (List.length data) = false) as ->
    by (by apply Nat.ltb_ge).
  assert (Nat.ltb MAX_COLS (List.length (union_keys data)) = false) as ->
    by (by apply Nat.ltb_ge).
  cbn [orb]. rewrite Ht. cbn.
  rewrite insert_insert_eq. unfold stored_sheet. simpl. by rewrite omap_empty.
Qed.

(** *** The edits on a small document *)

Definition notes_sheet : worksheet := Worksheet "Notes" ∅.
Definition two_sheets_fs : filesystem :=
  FS {[ "book.xlsx" := FWorkbook [people_sheet; notes_sheet] ]} ∅.


Definition yellow : fill :=
  PatternFill (Some "solid") (ColorRGB "00FFFF00") (ColorRGB "00FFFF00").

Lemma format_keeps_contents_witness :
  getitem people_sheet "A1:B1" = Ok (ITuples [[(1, 1); (1, 2)]]%nat)
  /\ requested_font None true None
     = Ok (Some (Font None None (Some true) None None))
  /\ requested_fill (Some "FFFF00") = Ok (Some yellow)
  /\ exists c',
       doc_cell
         (snd (format_excel_cells "book.xlsx" "People" "A1:B1" None (Some "FFFF00")
                 true None two_sheets_fs))
         "book.xlsx" "People" (1%nat, 1%nat) = Some c'
       /\ value c' = stored_value (value (cell_at people_sheet (1%nat, 1%nat)))
       /\ ("People" <> "People" ->
           cfont c' = cfont (cell_at people_sheet (1%nat, 1%nat))
           /\ cfill c' = cfill (cell_at people_sheet (1%nat, 1%nat))).
Proof.
  split; [vm_compute; reflexivity|]. split; [vm_compute; reflexivity|].
  split; [vm_compute; reflexivity|].
  refine (proj2 (proj2 (format_keeps_contents "book.xlsx" "People" "A1:B1" None
                          (Some "FFFF00") true None two_sheets_fs
                          [people_sheet; notes_sheet] people_sheet
                          [[(1, 1); (1, 2)]]%nat
                          (Some (Font None None (Some true) None None)) (Some yellow)
                          _ _ _ _ _ _))
            "People" people_sheet (1%nat, 1%nat) _);
    vm_compute; reflexivity || set_solver.
Defined.

Lemma delete_removes_named_sheet_witness :
  load_workbook two_sheets_fs "book.xlsx" = Ok [people_sheet; notes_sheet]
  /\ exists before after,
       sheetnames [people_sheet; notes_sheet] = (before ++ "Notes" :: after)%list
       /\ ("Notes" ∉ before)
       /\ fst (delete_excel_sheet "book.xlsx" "Notes" two_sheets_fs)
          = [("status", PStr "success");
             ("file_path", PStr "book.xlsx");
             ("deleted_sheet", PStr "Notes");
             ("remaining_sheets", PList (map PStr (before ++ after)))]
       /\ fst (list_excel_sheets "book.xlsx"
                 (snd (delete_excel_sheet "book.xlsx" "Notes" two_sheets_fs)))
          = listed "book.xlsx" (before ++ after)
       /\ (forall n w rc, n <> "Notes" ->
             get_sheet [people_sheet; notes_sheet] n = Ok w ->
             exists c',
               doc_cell (snd (delete_excel_sheet "book.xlsx" "Notes" two_sheets_fs))
                 "book.xlsx" n rc = Some c'
               /\ cfont c' = cfont (cell_at w rc)
               /\ cfill c' = cfill (cell_at w rc)
               /\ value c' = stored_value (value (cell_at w rc))).
Proof.
  split; [vm_compute; reflexivity|].
  apply (delete_removes_named_sheet "book.xlsx" "Notes" two_sheets_fs
           [people_sheet; notes_sheet]).
  - vm_compute; reflexivity.
  - vm_compute; reflexivity.
  - simpl. lia.
  - set_solver.
Defined.


Lemma add_creates_document_witness :
  exists_ (FS ∅ ∅) "new.xlsx" = false
  /\ create_sheet new_workbook "Data"
     = Ok ([Worksheet "Sheet" ∅; Worksheet "Data" ∅], "Data")
  /\ files (snd (add_excel_sheet "new.xlsx" "Data" None (FS ∅ ∅))) !! "new.xlsx"
     = Some (FWorkbook [Worksheet "Sheet" ∅; Worksheet "Data" ∅]).
Proof.
  split; [vm_compute; reflexivity|]. split; [vm_compute; reflexivity|].
  refine (proj1 (proj2 (add_creates_document "new.xlsx" "Data" None (FS ∅ ∅)
                          [Worksheet "Sheet" ∅; Worksheet "Data" ∅] "Data"
                          _ _ _ _ _))).
  - vm_compute; reflexivity.
  - vm_compute; reflexivity.
  - vm_compute; reflexivity.
  - reflexivity.
  - set_solver.
Defined.

Lemma write_discards_previous_witness :
  exists r f, forall fs,
    "book.xlsx" ∉ unwritable fs ->
    write_excel_file "book.xlsx" two_people "S1" fs
    = (r, FS (<["book.xlsx" := f]> (files fs)) (unwritable fs)).
Proof.
  apply (write_discards_previous "book.xlsx" two_people "S1").
  vm_compute; reflexivity.
Defined.

Lemma failed_write_empties_document_witness :
  set_title ["Sheet"] "Sheet" "a/b"
  = Raise "Invalid character / found in sheet title"
  /\ write_excel_file "book.xlsx" two_people "a/b" people_fs
     = (unexpected "Invalid character / found in sheet title",
        FS (<["book.xlsx" := FWorkbook [Worksheet "Sheet" ∅]]> (files people_fs))
           (unwritable people_fs)).
Proof.
  split; [vm_compute; reflexivity|].
  apply (failed_write_empties_document "book.xlsx" two_people "a/b" people_fs).
  - vm_compute; reflexivity.
  - set_solver.
  - unfold MAX_ROWS. change (List.length two_people) with 2%nat. lia.
  - unfold MAX_COLS; vm_compute; lia.
  - vm_compute; reflexivity.
Defined.

End Edits.

(** ** What the reading tools return *)

Module Queries.
Import Py Xl Pd Tools Facts RoundTrip.

(** [d[k]] on a dictionary *)
Fixpoint dict_get (k : scalar) (d : list (scalar * pyval)) : option pyval :=
  match d with
  | [] => None
  | (k', v) :: d' => if py_eq k' k then Some v else dict_get k d'
  end.

Lemma dict_get_set k v d : py_eq k k = true -> dict_get k (dict_set k v d) = Some v.
Proof.
  intros Hk. induction d as [|[k' v'] d IH]; simpl; [by rewrite Hk|].
  destruct (py_eq k' k) eqn:E; simpl; by rewrite E.
Qed.

(** The rows a search selects: the indices at which the searched text is
    found, in order. *)
Definition hits (search : string -> bool) (col : list scalar) : list nat :=
  filter (fun i => search (py_str (nth i col SNull))) (seq 0 (List.length col)).

Lemma shift_filter n (m : bool) ms k :
  filter (fun i => nth (i - n) (m :: ms) false) (seq (S n) k)
  = filter (fun i => nth (i - S n) ms false) (seq (S n) k).
Proof.
  apply filter_ext_in. intros i Hi%in_seq.
  replace (i - n)%nat with (S (i - S n)) by lia. done.
Qed.

Lemma shift_map n (r : list scalar) rs (l : list nat) :
  (forall i, In i l -> (S n <= i)%nat) ->
  map (fun i => (i, nth (i - n) (r :: rs) [])) l
  = map (fun i => (i, nth (i - S n) rs [])) l.
Proof.
  intros Hl. apply map_ext_in. intros i Hi%Hl.
  replace (i - n)%nat with (S (i - S n)) by lia. done.
Qed.

Lemma select_from n (rs : list (list scalar)) (ms : list bool) :
  List.length ms = List.length rs ->
  map (fun p : nat * (list scalar * bool) => (fst p, fst (snd p)))
    (filter (fun p : nat * (list scalar * bool) => snd (snd p))
       (imap (fun i x => ((n + i)%nat, x)) (combine rs ms)))
  = map (fun i => (i, nth (i - n) rs []))
      (filter (fun i => nth (i - n) ms false) (seq n (List.length rs))).
Proof.
  revert n ms. induction rs as [|r rs IH]; intros n [|m ms] Hlen; try done.
  cbn [combine imap List.length seq filter snd].
  rewrite (imap_ext _ (fun i x => ((S n + i)%nat, x)))
    by (intros; simpl; f_equal; lia).
  rewrite Nat.sub_diag, shift_filter. change (nth 0 (m :: ms) false) with m.
  assert (forall i, In i (filter (fun i => nth (i - S n) ms false)
                            (seq (S n) (List.length rs))) -> (S n <= i)%nat) as Hge.
  { intros i [Hi _]%filter_In. apply in_seq in Hi. lia. }
  simpl in Hlen. destruct m; cbn [map fst snd].
  - rewrite Nat.add_0_r, Nat.sub_diag. change (nth 0 (r :: rs) []) with r. f_equal.
    rewrite IH by lia. symmetry. by apply shift_map.
  - rewrite IH by lia. symmetry. by apply shift_map.
Qed.

Lemma getcol_length df name col :
  getcol df name = Ok col -> List.length col = len df.
Proof.
  unfold getcol. destruct (column_index _ _); [|done]. intros [= <-].
  unfold column_of, len. by rewrite length_map.
Qed.

(** The rows selected by a search of a column turned into text. *)
Lemma select_rows_hits df search col :
  List.length col = len df ->
  select_rows df (str_contains search false (astype_str col))
  = map (fun i => (i, nth i (rows df) [])) (hits search col).
Proof.
  intros Hlen. unfold select_rows.
  pose proof (select_from 0 (rows df) (str_contains search false (astype_str col)))
    as H.
  simpl in H. rewrite H.
  - unfold hits. fold (len df). rewrite Hlen.
    assert (filter (fun i => nth (i - 0)
                       (str_contains search false (astype_str col)) false)
              (seq 0 (len df))
            = filter (fun i => search (py_str (nth i col SNull))) (seq 0 (len df)))
      as ->.
    { apply filter_ext_in. intros i Hi%in_seq. rewrite Nat.sub_0_r.
      unfold str_contains, astype_str. rewrite !nth_lookup, !list_lookup_fmap.
      destruct (col !! i) as [v|] eqn:Hv; [done|].
      apply lookup_ge_None in Hv. lia. }
    apply map_ext. intros i. by rewrite Nat.sub_0_r.
  - unfold str_contains, astype_str. rewrite !length_map. exact Hlen.
Qed.

Lemma column_index_none labels name :
  (forall l, l ∈ labels -> py_eq l (SText name) = false) ->
  column_index labels name = None.
Proof.
  induction labels as [|l labels IH]; intros H; simpl; [done|].
  rewrite (H l) by (by left). rewrite IH; [done|]. intros; apply H; by right.
Qed.

(** A column counts as numeric when it holds a value and all its values are
    ints or floats. *)
Lemma is_numeric_dtype_spec col :
  is_numeric_dtype col = (negb (Nat.eqb (List.length col) 0) && forallb is_number col)%bool.
Proof.
  unfold is_numeric_dtype, dtype. destruct col as [|v col]; [done|].
  set (l := v :: col). cbn [List.length Nat.eqb negb andb].
  destruct (forallb (fun v0 => match v0 with SBool _ => true | _ => false end) l) eqn:Hb.
  - assert (forallb is_number l = false) as ->; [|done].
    subst l. simpl in *. destruct v; try done.
  - destruct (forallb (fun v0 => match v0 with SInt _ => true | _ => false end) l) eqn:Hi.
    + assert (forallb is_number l = true) as ->; [|done].
      apply forallb_forall. intros y Hy.
      eapply forallb_forall in Hi; [|exact Hy]. by destruct y.
    + by destruct (forallb is_number l).
Qed.

Section Tools.

Variable memory_usage : DataFrame -> Z.
Variable describe : DataFrame -> exc pyval.
Variable re_compile : string -> exc (string -> bool).

(** The four reading tools never change a file: whatever their arguments
    and whatever they return, the file system after the call is the one
    before it. *)
Theorem queries_change_nothing (file_path sheet_name search_column search_value : string)
    (sheet : option string) (fs : filesystem) :
  snd (read_excel_file file_path sheet fs) = fs
  /\ snd (list_excel_sheets file_path fs) = fs
  /\ snd (excel_data_summary memory_usage describe file_path sheet fs) = fs
  /\ snd (find_excel_row_by_content re_compile file_path sheet_name search_column
            search_value fs) = fs.
Proof.
  unfold read_excel_file, list_excel_sheets, excel_data_summary,
    find_excel_row_by_content, try_except.
  repeat split; repeat case_match; simplify_eq; done.
Qed.

(** *** The records of a read *)

(** read_excel_file, when the frame is read: the data holds one record for
    each row of the frame, and the record of index [i] carries
    [_excel_row_number = i + 2]; the head holds the first five rows, or all
    of them when there are fewer, as records without a row number. *)
Theorem read_rows_are_numbered (file_path : string) (sheet : option string)
    (fs : filesystem) (df : DataFrame) :
  exists_ fs file_path = true ->
  (endswith file_path ".xlsx" || endswith file_path ".xls")%bool = true ->
  read_excel fs file_path (truthy sheet) = Ok df ->
  let out := fst (read_excel_file file_path sheet fs) in
  exists records first,
    get "data" out = Some (PList records)
    /\ get "head" out = Some (PList first)
    /\ List.length records = len df
    /\ (forall i rec, records !! i = Some rec ->
          exists d, rec = PDict d
                    /\ dict_get (key "_excel_row_number") d = Some (PNat (i + 2)))
    /\ List.length first = Nat.min 5 (len df)
    /\ (forall i h, first !! i = Some h ->
          exists row, rows df !! i = Some row
                      /\ h = PDict (combine (columns df) (map PScalar row))).
Proof.
  intros Hex Hext Hdf out. subst out. unfold read_excel_file.
  rewrite Hex, Hext, Hdf. cbn [negb try_except fst].
  eexists _, _. split; [reflexivity|]. split; [reflexivity|]. split; [|split; [|split]].
  - unfold with_row_numbers, to_dict_records, len.
    by rewrite length_imap, length_map.
  - intros i rec. unfold with_row_numbers. rewrite list_lookup_imap.
    destruct (to_dict_records df !! i) as [d|]; [|done]. simpl. intros [= <-].
    eexists. split; [done|]. by apply dict_get_set.
  - unfold to_dict_records, head, len. cbn [rows columns].
    by rewrite !length_map, length_take.
  - intros i h. unfold to_dict_records, head. cbn [rows columns].
    rewrite !list_lookup_fmap.
    destruct (take 5 (rows df) !! i) as [row|] eqn:Hrow; [|done].
    simpl. intros [= <-]. exists row. split; [|done].
    apply lookup_take_Some in Hrow. by destruct Hrow.
Qed.

(** *** The rows of a search *)

(** find_excel_row_by_content, when the frame is read, the column exists
    and the pattern compiles: the rows found are exactly those at whose
    index the pattern is found in the text of the column's value, in
    ascending order; each is reported with its index, its index plus two as
    row number, and its values; none found gives the not-found object. *)
Theorem search_reports_matching_rows
    (file_path sheet_name search_column search_value : string) (fs : filesystem)
    (df : DataFrame) (col : list scalar) (search : string -> bool) :
  exists_ fs file_path = true ->
  read_excel fs file_path (Some sheet_name) = Ok df ->
  getcol df search_column = Ok col ->
  re_compile search_value = Ok search ->
  fst (find_excel_row_by_content re_compile file_path sheet_name search_column
         search_value fs)
  = match hits search col with
    | [] =>
        [("found", PBool false);
         ("message", PStr ("'" +:+ search_value +:+ "' が列 '" +:+ search_column
                             +:+ "' で見つかりませんでした"))]
    | found =>
        [("found", PBool true);
         ("search_column", PStr search_column);
         ("search_value", PStr search_value);
         ("matches",
          PList (map (fun i =>
                        PDict [(key "excel_row_number", PNat (i + 2));
                               (key "pandas_index", PNat i);
                               (key "data",
                                PDict (combine (columns df)
                                         (map PScalar
                                            (row_values df (nth i (rows df) [])))))])
                   found));
         ("total_matches", PNat (List.length found))]
    end.
Proof.
  intros Hex Hdf Hcol Hre. unfold find_excel_row_by_content.
  rewrite Hex, Hdf. cbn [negb ebind]. rewrite Hcol. cbn [ebind].
  rewrite Hre. cbn [ebind].
  rewrite (select_rows_hits df search col (getcol_length _ _ _ Hcol)).
  destruct (hits search col) as [|i found]; [done|].
  cbn [map try_except fst List.length]. unfold match_entry.
  by rewrite !map_map, !length_map.
Qed.

(** A column that the sheet does not have makes the search return an error
    object that quotes the name, not the not-found object. *)
Theorem search_unknown_column
    (file_path sheet_name search_column search_value : string) (fs : filesystem)
    (df : DataFrame) :
  exists_ fs file_path = true ->
  read_excel fs file_path (Some sheet_name) = Ok df ->
  (forall l, l ∈ columns df -> py_eq l (SText search_column) = false) ->
  fst (find_excel_row_by_content re_compile file_path sheet_name search_column
         search_value fs)
  = unexpected ("'" +:+ search_column +:+ "'").
Proof.
  intros Hex Hdf Hno. unfold find_excel_row_by_content, getcol.
  rewrite Hex, Hdf. cbn [negb ebind].
  by rewrite (column_index_none _ _ Hno).
Qed.

(** *** The numeric section of a summary *)

Definition summary_keys : list string :=
  ["file_path"; "sheet_name"; "shape"; "columns"; "data_types"; "null_counts";
   "memory_usage"].

Lemma numeric_columns_spec df j :
  j ∈ numeric_columns df
  <-> (j < List.length (columns df))%nat
      /\ len df <> O
      /\ forallb is_number (column_of j (rows df)) = true.
Proof.
  unfold numeric_columns. rewrite list_elem_of_In, filter_In, in_seq.
  rewrite is_numeric_dtype_spec. unfold column_of at 1. rewrite length_map.
  fold (len df). rewrite andb_true_iff, negb_true_iff, Nat.eqb_neq. simpl.
  split; [intros [[_ ?] [? ?]] | intros (? & ? & ?)]; repeat split; done || lia.
Qed.

(** excel_data_summary, when the frame is read: without a column that holds
    a value and only ints and floats, the summary has its seven fields and
    no numeric section, and the statistics are not computed; with such a
    column, the numeric section holds the statistics of those columns. *)
Theorem summary_numeric_section (file_path : string) (sheet : option string)
    (fs : filesystem) (df : DataFrame) :
  exists_ fs file_path = true ->
  read_excel fs file_path (truthy sheet) = Ok df ->
  let out := fst (excel_data_summary memory_usage describe file_path sheet fs) in
  ((forall j, (j < List.length (columns df))%nat ->
      len df = O \/ forallb is_number (column_of j (rows df)) = false) ->
   keys out = summary_keys)
  /\ (forall j stats,
        (j < List.length (columns df))%nat -> len df <> O ->
        forallb is_number (column_of j (rows df)) = true ->
        describe (select_columns df (numeric_columns df)) = Ok stats ->
        keys out = (summary_keys ++ ["numeric_summary"])%list
        /\ get "numeric_summary" out = Some stats).
Proof.
  intros Hex Hdf out. subst out. unfold excel_data_summary.
  rewrite Hex, Hdf. cbn [negb]. split.
  - intros Hnone.
    assert (numeric_columns df = []) as ->; [|done].
    destruct (numeric_columns df) as [|j js] eqn:Hn; [done|].
    assert (j ∈ numeric_columns df) as Hj by (rewrite Hn; by left).
    apply numeric_columns_spec in Hj as (Hlt & Hlen & Hnum).
    destruct (Hnone j Hlt); congruence.
  - intros j stats Hlt Hlen Hnum Hdesc.
    assert (j ∈ numeric_columns df) as Hj by (by apply numeric_columns_spec).
    destruct (numeric_columns df) as [|j0 js] eqn:Hn; [by apply elem_of_nil in Hj|].
    rewrite Hdesc. done.
Qed.

End Tools.

(** *** The reading tools on a small document *)

Definition people_frame : DataFrame :=
  Frame [SText "name"; SText "age"] [[SText "Alice"; SInt 30]].

Lemma read_rows_are_numbered_witness :
  read_excel people_fs "book.xlsx" (Some "People") = Ok people_frame
  /\ exists records first,
       get "data" (fst (read_excel_file "book.xlsx" (Some "People") people_fs))
       = Some (PList records)
       /\ get "head" (fst (read_excel_file "book.xlsx" (Some "People") people_fs))
          = Some (PList first)
       /\ List.length records = len people_frame
       /\ (forall i rec, records !! i = Some rec ->
             exists d, rec = PDict d
                       /\ dict_get (key "_excel_row_number") d = Some (PNat (i + 2)))
       /\ List.length first = Nat.min 5 (len people_frame)
       /\ (forall i h, first !! i = Some h ->
             exists row, rows people_frame !! i = Some row
                         /\ h = PDict (combine (columns people_frame)
                                         (map PScalar row))).
Proof.
  split; [vm_compute; reflexivity|].
  apply (read_rows_are_numbered "book.xlsx" (Some "People") people_fs people_frame);
    vm_compute; reflexivity.
Defined.

Lemma search_reports_matching_rows_witness :
  fst (find_excel_row_by_content Searching.literal "book.xlsx" "People" "name" "ali"
         people_fs)
  = [("found", PBool true);
     ("search_column", PStr "name");
     ("search_value", PStr "ali");
     ("matches",
      PList [PDict [(key "excel_row_number", PInt 2);
                    (key "pandas_index", PInt 0);
                    (key "data", PDict [(key "name", PStr "Alice");
                                        (key "age", PInt 30)])]]);
     ("total_matches", PInt 1)].
Proof.
  etransitivity.
  - apply (search_reports_matching_rows Searching.literal "book.xlsx" "People" "name"
             "ali" people_fs people_frame [SText "Alice"]
             (fun s => contains (lower s) (lower "ali")));
      vm_compute; reflexivity.
  - vm_compute. reflexivity.
Defined.

Lemma search_unknown_column_witness :
  fst (find_excel_row_by_content Searching.literal "book.xlsx" "People" "salary" "1"
         people_fs)
  = unexpected "'salary'".
Proof.
  apply (search_unknown_column Searching.literal "book.xlsx" "People" "salary" "1"
           people_fs people_frame).
  - vm_compute; reflexivity.
  - vm_compute; reflexivity.
  - intros l Hl. simpl in Hl.
    repeat (apply elem_of_cons in Hl as [->|Hl]); [done|done|].
    by apply elem_of_nil in Hl.
Defined.

Lemma summary_numeric_section_witness :
  get "numeric_summary"
    (fst (excel_data_summary (fun _ => 0) (fun _ => Ok (PDict [])) "book.xlsx"
            (Some "People") people_fs))
  = Some (PDict []).
Proof.
  refine (proj2 (proj2 (summary_numeric_section (fun _ => 0) (fun _ => Ok (PDict []))
                          "book.xlsx" (Some "People") people_fs people_frame _ _)
                   1%nat (PDict []) _ _ _ _)).
  - vm_compute; reflexivity.
  - vm_compute; reflexivity.
  - simpl; lia.
  - done.
  - reflexivity.
  - reflexivity.
Defined.

End Queries.

(** ** Calls in sequence *)

Module Sequences.
Import Py Xl Pd Tools Facts Formatting Writing Reading RoundTrip Edits.

(** *** The tools on good arguments *)





(** *** What a document stores, stored again *)


Lemma title_stored_sheet ws : title (stored_sheet ws) = title ws.
Proof. done. Qed.



(** *** The address of one cell *)




(** *** One cell updated twice *)


(** *** A sheet added, then deleted *)




End Sequences.

(** ** A sheet added with data *)

Module Appending.
Import Py Xl Pd Tools Facts Formatting Writing Reading RoundTrip Edits.









End Appending.

(** ** Reading without a sheet name *)

Module DefaultSheet.
Import Py Xl Pd Tools Facts RoundTrip.

Lemma read_excel_first fs file_path ws rest :
  files fs !! file_path = Some (FWorkbook (ws :: rest)) ->
  truthy_str (title ws) = true ->
  read_excel fs file_path (truthy (Some (title ws)))
  = read_excel fs file_path (truthy None).
Proof.
  intros Hfile Ht. unfold read_excel. rewrite Hfile. cbn [truthy]. rewrite Ht.
  cbn [sheetnames map str_in existsb get_sheet].
  by rewrite str_eqb_refl.
Qed.

(** read_excel_file without a sheet name, or with an empty one, reads the
    first sheet of the document: apart from the field sheet_name, which
    then holds the default label, its result is the one that naming the
    first sheet gives. *)
Theorem read_defaults_to_first_sheet (file_path : string) (fs : filesystem)
    (ws : worksheet) (rest : workbook) :
  files fs !! file_path = Some (FWorkbook (ws :: rest)) ->
  truthy_str (title ws) = true ->
  let unnamed := fst (read_excel_file file_path None fs) in
  let named := fst (read_excel_file file_path (Some (title ws)) fs) in
  read_excel_file file_path (Some EmptyString) fs = read_excel_file file_path None fs
  /\ (forall k, k <> "sheet_name" -> get k unnamed = get k named)
  /\ (get "error" unnamed = None ->
      get "sheet_name" unnamed = Some (PStr "デフォルトシート")
      /\ get "sheet_name" named = Some (PStr (title ws))).
Proof.
  intros Hfile Ht unnamed named. split; [done|].
  subst unnamed named. unfold read_excel_file.
  rewrite (exists_Some _ _ _ Hfile). cbn [negb].
  destruct (endswith file_path ".xlsx" || endswith file_path ".xls")%bool;
    cbn [negb]; [|by split].
  rewrite (read_excel_first fs file_path ws rest Hfile Ht).
  destruct (read_excel fs file_path (truthy None)) as [df|e]; [|by split].
  cbn [try_except fst truthy default]. rewrite Ht. split.
  - intros k Hk. cbn [get].
    destruct (str_eqb "file_path" k); [done|].
    destruct (str_eqb "sheet_name" k) eqn:E; [|done].
    apply str_eqb_true in E. congruence.
  - intros _. by split.
Qed.

Lemma read_defaults_to_first_sheet_witness :
  get "data" (fst (read_excel_file "book.xlsx" None people_fs))
  = get "data" (fst (read_excel_file "book.xlsx" (Some "People") people_fs)).
Proof.
  refine (proj1 (proj2 (read_defaults_to_first_sheet "book.xlsx" people_fs
                          people_sheet [] _ _)) "data" _).
  - vm_compute; reflexivity.
  - reflexivity.
  - discriminate.
Defined.

End DefaultSheet.
